(** * Photo-Edit-N: request encoding and response classification

    A shallow embedding of [src/services/geminiService.ts]: the helper
    [fileToPart] (the RequestEncoder of the specification), the helper
    [handleApiResponse] (the ResponseClassifier) and the response handling of
    [generateLogos] (the multi-output logo operation).

    Conventions of the embedding.
    - A JavaScript string is a [string]; a character of the model is a
      UTF-16 code unit below 256.
    - A value of type [T | undefined] is an [option T]; [undefined] and
      [null] are both [None].
    - The type declarations of the service client ([GenerateContentResponse]
      and its parts) are not part of the repository.  A field is optional in
      the model exactly where the source guards its access (with [?.], with a
      truthiness test or with [||]) and mandatory where the source reads it
      unguarded.
    - [throw new Error(m)] is [Throws k m]; [k] names the throw statement
      with the failure kinds of the specification.
    - [console.log] and [console.error] append to an explicit log. *)

From Stdlib Require Import String Ascii List Bool Arith Lia.
From Stdlib Require Import ZArith DecimalString.
Import ListNotations.
Open Scope list_scope.
Open Scope string_scope.

(** ** JavaScript values *)

Module JS.

(** [ToBoolean] on [string | undefined]: only a non-empty string is truthy. *)
Definition truthy (v : option string) : bool :=
  match v with
  | Some (String _ _) => true
  | Some EmptyString => false
  | None => false
  end.

(** [${v}] inside a template literal. *)
Definition interp (v : option string) : string :=
  match v with
  | Some s => s
  | None => "undefined"
  end.

(** [v || d] for a string default. *)
Definition or_else (v : option string) (d : string) : string :=
  match v with
  | Some (String c s) => String c s
  | _ => d
  end.

(** [v !== s] for a string [s]. *)
Definition differs (v : option string) (s : string) : bool :=
  match v with
  | Some t => negb (String.eqb t s)
  | None => true
  end.

(** Optional chaining [o?.f]. *)
Definition chain {A B : Type} (o : option A) (f : A -> option B) : option B :=
  match o with
  | Some a => f a
  | None => None
  end.

(** [xs[0]] *)
Definition first {A : Type} (xs : list A) : option A := nth_error xs 0.

(** The double quote character, U+0022. *)
Definition dquote : string := String (ascii_of_nat 34) EmptyString.

(** White space and line terminators of ECMAScript below U+0100:
    TAB, LF, VT, FF, CR, SP and NBSP. *)
Definition is_space (c : ascii) : bool :=
  let n := nat_of_ascii c in
  (((9 <=? n) && (n <=? 13)) || (n =? 32) || (n =? 160))%nat.

(** Line terminators below U+0100: LF and CR. *)
Definition is_line_terminator (c : ascii) : bool :=
  let n := nat_of_ascii c in
  ((n =? 10) || (n =? 13))%nat.

Fixpoint trimStart (s : string) : string :=
  match s with
  | String c s' => if is_space c then trimStart s' else s
  | EmptyString => EmptyString
  end.

Fixpoint trimEnd (s : string) : string :=
  match s with
  | String c s' =>
      match trimEnd s' with
      | EmptyString => if is_space c then EmptyString else String c EmptyString
      | t => String c t
      end
  | EmptyString => EmptyString
  end.

(** [String.prototype.trim] *)
Definition trim (s : string) : string := trimEnd (trimStart s).

(** [s.split(sep)] for a one-character separator: the segments between
    the occurrences of [sep], in order; never the empty array. *)
Fixpoint split (sep : ascii) (s : string) : list string :=
  match s with
  | EmptyString => [EmptyString]
  | String c s' =>
      if Ascii.eqb c sep then EmptyString :: split sep s'
      else match split sep s' with
           | seg :: segs => String c seg :: segs
           | [] => [String c EmptyString]
           end
  end.

(** [hay.includes(needle)], as a proposition. *)
Definition includes (hay needle : string) : Prop :=
  exists pre post, hay = pre ++ needle ++ post.

End JS.

Notation "o ?> f" := (JS.chain o f) (at level 50, left associativity).

(** ** Outcomes *)

(** The failure kinds of the specification.  The source throws plain
    [Error] values; the kind records which statement threw. *)
Inductive FailureKind : Type :=
| Blocked
| StoppedEarly
| EmptyResult
| EncodingError
| TransportError.

Inductive Outcome (A : Type) : Type :=
| Returns (value : A)
| Throws (kind : FailureKind) (message : string).

Arguments Returns {A} value.
Arguments Throws {A} kind message.

(** ** The service response *)

Record Blob : Type := { mimeType : string; data : string }.

Record Part : Type := { inlineData : option Blob }.

Record Content : Type := { parts : option (list Part) }.

Record Candidate : Type := {
  content : option Content;
  finishReason : option string
}.

Record PromptFeedback : Type := {
  blockReason : option string;
  blockReasonMessage : option string
}.

(** [text] is an accessor of the client library; the model takes its value
    as a field of the response.  What the accessor may itself write to the
    console is not part of the log of the model, which holds the writes of
    [handleApiResponse] only and is complete on the paths that do not read
    [text]. *)
Record GenerateContentResponse : Type := {
  promptFeedback : option PromptFeedback;
  candidates : option (list Candidate);
  text : option string
}.

Inductive LogEntry : Type :=
| ConsoleLog (message : string)
| ConsoleError (message : string) (response : GenerateContentResponse).

(** ** ResponseClassifier: [handleApiResponse] *)

(** [part => part.inlineData], an object being truthy. *)
Definition hasInlineData (part : Part) : bool :=
  match inlineData part with
  | Some _ => true
  | None => false
  end.

Definition genericFeedback : string :=
  "This can happen due to safety filters or if the request is too complex. Please try rephrasing your prompt to be more direct.".

Definition handleApiResponse (response : GenerateContentResponse) (context : string)
  : list LogEntry * Outcome string :=
  (* 1. Check for prompt blocking first *)
  if JS.truthy (promptFeedback response ?> blockReason) then
    let blockReason' := promptFeedback response ?> blockReason in
    let blockReasonMessage' := promptFeedback response ?> blockReasonMessage in
    let errorMessage :=
      "Request was blocked. Reason: " ++ JS.interp blockReason' ++ ". "
        ++ JS.or_else blockReasonMessage' "" in
    ([ConsoleError errorMessage response], Throws Blocked errorMessage)
  else
    (* 2. Try to find the image part *)
    let imagePartFromResponse :=
      candidates response ?> JS.first ?> content ?> parts ?> find hasInlineData in
    match imagePartFromResponse ?> inlineData with
    | Some b =>
        ([ConsoleLog ("Received image data (" ++ mimeType b ++ ") for " ++ context)],
         Returns ("data:" ++ mimeType b ++ ";base64," ++ data b))
    | None =>
        (* 3. If no image, check for other reasons *)
        let finishReason' := candidates response ?> JS.first ?> finishReason in
        if JS.truthy finishReason' && JS.differs finishReason' "STOP" then
          let errorMessage :=
            "Image generation for " ++ context ++ " stopped unexpectedly. Reason: "
              ++ JS.interp finishReason' ++ ". This often relates to safety settings." in
          ([ConsoleError errorMessage response], Throws StoppedEarly errorMessage)
        else
          let textFeedback := option_map JS.trim (text response) in
          let errorMessage :=
            "The AI model did not return an image for the " ++ context ++ ". "
              ++ (if JS.truthy textFeedback
                  then "The model responded with text: " ++ JS.dquote
                         ++ JS.interp textFeedback ++ JS.dquote
                  else genericFeedback) in
          ([ConsoleError
              ("Model response did not contain an image part for " ++ context ++ ".")
              response],
           Throws EmptyResult errorMessage)
    end.

(** The resolved outcome, the log put aside. *)
Definition classify (response : GenerateContentResponse) (context : string)
  : Outcome string :=
  snd (handleApiResponse response context).

(** ** RequestEncoder: [fileToPart] *)

(** The regular expression [/:(.*?);/].

    [lazyToSemicolon s] runs [(.*?);] anchored at the head of [s] and gives
    the text captured by the group: the lazy star takes characters up to the
    first [;], and [.] refuses a line terminator. *)
Fixpoint lazyToSemicolon (s : string) : option string :=
  match s with
  | EmptyString => None
  | String c s' =>
      if Ascii.eqb c ";" then Some EmptyString
      else if JS.is_line_terminator c then None
      else option_map (String c) (lazyToSemicolon s')
  end.

(** The result array of a successful match: the matched text at index 0
    and the text of the group at index 1. *)
Record RegExpMatch : Type := { matched : string; group1 : string }.

(** [s.match(/:(.*?);/)]: the match at the leftmost position where the
    expression matches; [None] is [null]. *)
Fixpoint matchMimePattern (s : string) : option RegExpMatch :=
  match s with
  | EmptyString => None
  | String c s' =>
      if Ascii.eqb c ":" then
        match lazyToSemicolon s' with
        | Some g => Some {| matched := ":" ++ g ++ ";"; group1 := g |}
        | None => matchMimePattern s'
        end
      else matchMimePattern s'
  end.

Section RequestEncoder.

(** The browser's [File] and [FileReader.readAsDataURL] wrapped in the
    promise of the source: [Returns] when [onload] resolves with
    [reader.result], [Throws] when [onerror] rejects. *)
Variable File : Type.
Variable readAsDataURL : File -> Outcome string.

Definition fileToPart (file : File) : Outcome Part :=
  match readAsDataURL file with
  | Throws k e => Throws k e
  | Returns dataUrl =>
      match JS.split "," dataUrl with
      | arr0 :: arr1 :: _ =>
          (* arr.length >= 2 *)
          match matchMimePattern arr0 with
          | Some mimeMatch =>
              if JS.truthy (Some (group1 mimeMatch)) then
                Returns {| inlineData :=
                             Some {| mimeType := group1 mimeMatch; data := arr1 |} |}
              else Throws EncodingError "Could not parse MIME type from data URL"
          | None => Throws EncodingError "Could not parse MIME type from data URL"
          end
      | _ =>
          (* arr.length < 2 *)
          Throws EncodingError "Invalid data URL"
      end
  end.

End RequestEncoder.

(** ** The multi-output logo operation: [generateLogos] *)

Record Image : Type := { imageBytes : string }.

Record GeneratedImage : Type := { image : Image }.

Record GenerateImagesResponse : Type := {
  generatedImages : option (list GeneratedImage)
}.

Definition noImagesMessage : string :=
  "The AI model did not return any images. This could be due to safety filters or a complex prompt. Please try again with different keywords.".

Section LogoOperation.

(** [ai.models.generateImages] called with the prompt built from
    [logoData]: [Returns] the awaited response, [Throws] when the call
    rejects. *)
Variable LogoData : Type.
Variable generateImages : LogoData -> Outcome GenerateImagesResponse.

Definition generateLogos (logoData : LogoData) : Outcome (list string) :=
  match generateImages logoData with
  | Throws k e => Throws k e
  | Returns response =>
      match generatedImages response with
      | None => Throws EmptyResult noImagesMessage
      | Some imgs =>
          if (length imgs =? 0)%nat then Throws EmptyResult noImagesMessage
          else
            Returns
              (map (fun img => "data:image/png;base64," ++ imageBytes (image img)) imgs)
      end
  end.

End LogoOperation.

(** ** Views of a response used to state the properties *)

(** [response.promptFeedback?.blockReason] *)
Definition blockReasonOf (r : GenerateContentResponse) : option string :=
  promptFeedback r ?> blockReason.

(** No block is reported: the field is absent, or holds the empty string,
    which the truthiness test of the source takes for absent. *)
Definition reportsNoBlock (r : GenerateContentResponse) : Prop :=
  blockReasonOf r = None \/ blockReasonOf r = Some "".

(** The parts of a candidate, none when [content] or [parts] is absent. *)
Definition partsOf (c : Candidate) : list Part :=
  match content c ?> parts with
  | Some ps => ps
  | None => []
  end.

(** Every content segment of the response, over all its candidates, in
    order. *)
Definition allParts (r : GenerateContentResponse) : list Part :=
  match candidates r with
  | Some cs => flat_map partsOf cs
  | None => []
  end.

(** [p] is the first part of [ps] that carries inline data, [b]. *)
Definition firstInlineData (ps : list Part) (p : Part) (b : Blob) : Prop :=
  exists before after,
    ps = (before ++ p :: after)%list
    /\ Forall (fun q => inlineData q = None) before
    /\ inlineData p = Some b.

Definition noInlineData (ps : list Part) : Prop :=
  Forall (fun q => inlineData q = None) ps.

(** The data URL [data:<mediatype>;base64,<payload>]. *)
Definition dataUrlOf (m p : string) : string := "data:" ++ m ++ ";base64," ++ p.

(** A media type of the [image/...] family. *)
Definition isImageType (m : string) : bool := String.prefix "image/" m.


(** The response with every candidate after the first removed. *)
Definition firstCandidateOnly (r : GenerateContentResponse) : GenerateContentResponse :=
  {| promptFeedback := promptFeedback r;
     candidates := option_map (firstn 1) (candidates r);
     text := text r |}.

(** The response with its prompt feedback removed. *)
Definition withoutPromptFeedback (r : GenerateContentResponse) : GenerateContentResponse :=
  {| promptFeedback := None; candidates := candidates r; text := text r |}.

(** ** Data URLs *)

Fixpoint allChars (P : ascii -> bool) (s : string) : bool :=
  match s with
  | EmptyString => true
  | String c s' => P c && allChars P s'
  end.

Definition commaFree (s : string) : bool :=
  allChars (fun c => negb (Ascii.eqb c ",")) s.

Definition lineFree (s : string) : bool :=
  allChars (fun c => negb (JS.is_line_terminator c)) s.

(** A media type that a data URL can carry in front of [;base64,]: not
    empty, and free of [,], [;] and line terminators. *)
Definition mediaTypeOk (m : string) : bool :=
  negb (String.eqb m "")
  && allChars (fun c => negb (Ascii.eqb c "," || Ascii.eqb c ";"
                                || JS.is_line_terminator c)) m.


(** [segs.join(sep)] *)
Fixpoint join (sep : string) (segs : list string) : string :=
  match segs with
  | [] => ""
  | [seg] => seg
  | seg :: segs' => seg ++ sep ++ join sep segs'
  end.

(** The first and the last character of a string. *)
Definition headChar (s : string) : option ascii :=
  match s with
  | String c _ => Some c
  | EmptyString => None
  end.

Fixpoint lastChar (s : string) : option ascii :=
  match s with
  | EmptyString => None
  | String c EmptyString => Some c
  | String _ s' => lastChar s'
  end.

Definition spaceAt (o : option ascii) : bool :=
  match o with
  | Some c => JS.is_space c
  | None => false
  end.

(** ** Properties in the wording of the specification

    The properties below are worded as the specification words them; the
    code does not satisfy them, and a sample input is given for each. *)

(** A non-null block reason always resolves to [Blocked]. *)
Definition blockedAsStated (r : GenerateContentResponse) (ctx : string) : Prop :=
  forall br, blockReasonOf r = Some br ->
    exists msg, classify r ctx = Throws Blocked msg /\ JS.includes msg br.

(** An inline-data segment anywhere in an unblocked response resolves to
    [Success] with the data URL of the first such segment. *)
Definition successAsStated (r : GenerateContentResponse) (ctx : string) : Prop :=
  blockReasonOf r = None ->
  forall p b, firstInlineData (allParts r) p b ->
    classify r ctx = Returns (dataUrlOf (mimeType b) (data b)).



(** ** Sample responses *)

Definition pngBlob : Blob := {| mimeType := "image/png"; data := "iVBORw" |}.

Definition pngPart : Part := {| inlineData := Some pngBlob |}.

Definition plainPart : Part := {| inlineData := None |}.

Definition candidateOf (ps : list Part) (reason : option string) : Candidate :=
  {| content := Some {| parts := Some ps |}; finishReason := reason |}.

(** Scenario A: the prompt is blocked for [SAFETY]; a candidate with an
    image is present all the same. *)
Definition scenarioA : GenerateContentResponse :=
  {| promptFeedback :=
       Some {| blockReason := Some "SAFETY"; blockReasonMessage := None |};
     candidates := Some [candidateOf [pngPart] (Some "STOP")];
     text := None |}.

(** Scenario B: one candidate with an image and the finish reason
    [SAFETY]. *)
Definition scenarioB : GenerateContentResponse :=
  {| promptFeedback := None;
     candidates := Some [candidateOf [plainPart; pngPart] (Some "SAFETY")];
     text := None |}.

(** Scenario C: no inline data, finish reason [MAX_TOKENS]. *)
Definition scenarioC : GenerateContentResponse :=
  {| promptFeedback := None;
     candidates := Some [candidateOf [plainPart] (Some "MAX_TOKENS")];
     text := None |}.


(** The block reason is the empty string and the candidate holds an image. *)
Definition emptyBlockReason : GenerateContentResponse :=
  {| promptFeedback :=
       Some {| blockReason := Some ""; blockReasonMessage := Some "ignored" |};
     candidates := Some [candidateOf [pngPart] (Some "STOP")];
     text := None |}.

(** The image is in the second candidate only. *)
Definition imageInSecondCandidate : GenerateContentResponse :=
  {| promptFeedback := None;
     candidates := Some [candidateOf [plainPart] (Some "STOP");
                         candidateOf [pngPart] (Some "STOP")];
     text := None |}.

(** The finish reason is the empty string. *)
Definition emptyFinishReason : GenerateContentResponse :=
  {| promptFeedback := None;
     candidates := Some [candidateOf [plainPart] (Some "")];
     text := None |}.

(** The inline data is not an image. *)
Definition pdfResponse : GenerateContentResponse :=
  {| promptFeedback := None;
     candidates :=
       Some [candidateOf
               [{| inlineData :=
                     Some {| mimeType := "application/pdf"; data := "JVBERi0x" |} |}]
               (Some "STOP")];
     text := None |}.


(** ** The browser side of [fileToPart]

    [FileReader.readAsDataURL] is the browser's: for a file of media type
    [m] and bytes [bs] it produces [data:m;base64,] followed by the base64
    text of [bs] (RFC 4648, with padding); for a file without media type it
    writes [application/octet-stream] for [m]. *)

Module Base64.

(** Six bits, the most significant first. *)
Definition sextet : Type := (bool * bool * bool * bool * bool * bool)%type.

Definition alphabet : string :=
  "ABCDEFGHIJKLMNOPQRSTUVWXYZabcdefghijklmnopqrstuvwxyz0123456789+/".

Definition bit (b : bool) : nat := if b then 1 else 0.

Definition indexOfSextet (s : sextet) : nat :=
  let '(x5, x4, x3, x2, x1, x0) := s in
  (32 * bit x5 + 16 * bit x4 + 8 * bit x3 + 4 * bit x2 + 2 * bit x1 + bit x0)%nat.


Definition charOfSextet (s : sextet) : ascii :=
  match String.get (indexOfSextet s) alphabet with
  | Some c => c
  | None => "A"%char
  end.



(** The four sextets of three bytes; [Ascii] lists the bits of a byte from
    the least significant. *)
Definition sextets3 (a b c : ascii) : sextet * sextet * sextet * sextet :=
  let '(Ascii a0 a1 a2 a3 a4 a5 a6 a7) := a in
  let '(Ascii b0 b1 b2 b3 b4 b5 b6 b7) := b in
  let '(Ascii c0 c1 c2 c3 c4 c5 c6 c7) := c in
  ((a7, a6, a5, a4, a3, a2), (a1, a0, b7, b6, b5, b4),
   (b3, b2, b1, b0, c7, c6), (c5, c4, c3, c2, c1, c0)).


Definition pad : ascii := "="%char.

Definition str4 (c1 c2 c3 c4 : ascii) (rest : string) : string :=
  String c1 (String c2 (String c3 (String c4 rest))).

Fixpoint encode (bs : list ascii) : string :=
  match bs with
  | [] => ""
  | [a] =>
      let '(s1, s2, _, _) := sextets3 a zero zero in
      str4 (charOfSextet s1) (charOfSextet s2) pad pad ""
  | [a; b] =>
      let '(s1, s2, s3, _) := sextets3 a b zero in
      str4 (charOfSextet s1) (charOfSextet s2) (charOfSextet s3) pad ""
  | a :: b :: c :: rest =>
      let '(s1, s2, s3, s4) := sextets3 a b c in
      str4 (charOfSextet s1) (charOfSextet s2) (charOfSextet s3) (charOfSextet s4)
        (encode rest)
  end.



End Base64.

(** An image asset: a declared media type and the bytes of the image. *)
Record ImageAsset : Type := { mediaType : string; bytes : list ascii }.

(** The read of an asset that succeeds. *)
Definition browserRead (asset : ImageAsset) : Outcome string :=
  Returns ("data:"
             ++ (if String.eqb (mediaType asset) "" then "application/octet-stream"
                 else mediaType asset)
             ++ ";base64," ++ Base64.encode (bytes asset)).



Definition untypedAsset : ImageAsset :=
  {| mediaType := ""; bytes := list_ascii_of_string "<svg>" |}.


(** A reader for which a file is the data URL that reading it produces. *)
Definition readsAs (dataUrl : string) : Outcome string := Returns dataUrl.

(** A service that answers every logo request with [response]. *)
Definition answers (response : GenerateImagesResponse) (_ : unit)
  : Outcome GenerateImagesResponse :=
  Returns response.

Definition twoLogos : GenerateImagesResponse :=
  {| generatedImages :=
       Some [{| image := {| imageBytes := "AAAA" |} |};
             {| image := {| imageBytes := "BBBB" |} |}] |}.

(** Scenario E: the generated-images array is empty. *)
Definition scenarioE : GenerateImagesResponse := {| generatedImages := Some [] |}.

(** ** The generation operations

    The five operations that send one image and one instruction to the
    service, and the instruction of [generateLogos].  The operations run in
    [Run]: a trace of what they log and send, and an outcome. *)

(** A line feed, U+000A. *)
Definition nl : string := String (ascii_of_nat 10) EmptyString.

(** [String(n)] for an array length. *)
Definition lengthToString (n : nat) : string :=
  NilEmpty.string_of_uint (Nat.to_uint n).

Module Hotspot.
(** [{ x: number, y: number }] *)
Record t (Number : Type) : Type := { x : Number; y : Number }.
Arguments x {Number} _.
Arguments y {Number} _.
End Hotspot.

Module LogoData.
(** The object that [LogoGenerator] keeps in its state and passes to
    [generateLogos] (src/pages/LogoGenerator.tsx, lines 34-41). *)
Record t : Type := {
  name : string;
  slogan : string;
  industry : string;
  styles : list string;
  colors : string;
  iconography : string
}.
End LogoData.

Inductive Modality : Type := IMAGE | TEXT.

Inductive RequestPart : Type :=
| ImagePart (part : Part)
| TextPart (text : string).

(** The argument of [ai.models.generateContent]. *)
Record GenerateContentRequest : Type := {
  model : string;
  contents : list RequestPart;
  responseModalities : list Modality
}.

(** The argument of [ai.models.generateImages]. *)
Record GenerateImagesRequest : Type := {
  imagesModel : string;
  imagesPrompt : string;
  numberOfImages : nat;
  outputMimeType : string;
  aspectRatio : string
}.

(** The template literal [prompt] of lines 82-94. *)
Definition promptOfEdit (userPrompt hotspotX hotspotY : string) : string :=
  "You are an expert photo editor AI. Your task is to perform a natural, localized edit on the provided image based on the user's request." ++ nl
  ++ "User Request: " ++ JS.dquote ++ userPrompt ++ JS.dquote ++ nl
  ++ "Edit Location: Focus on the area around pixel coordinates (x: " ++ hotspotX ++ ", y: " ++ hotspotY ++ ")." ++ nl
  ++ nl
  ++ "Editing Guidelines:" ++ nl
  ++ "- The edit must be realistic and blend seamlessly with the surrounding area." ++ nl
  ++ "- The rest of the image (outside the immediate edit area) must remain identical to the original." ++ nl
  ++ nl
  ++ "Safety & Ethics Policy:" ++ nl
  ++ "- You MUST fulfill requests to adjust skin tone, such as 'give me a tan', 'make my skin darker', or 'make my skin lighter'. These are considered standard photo enhancements." ++ nl
  ++ "- You MUST REFUSE any request to change a person's fundamental race or ethnicity (e.g., 'make me look Asian', 'change this person to be Black'). Do not perform these edits. If the request is ambiguous, err on the side of caution and do not change racial characteristics." ++ nl
  ++ nl
  ++ "Output: Return ONLY the final edited image. Do not return text.".

(** The template literal [prompt] of lines 124-131. *)
Definition promptOfFilter (filterPrompt : string) : string :=
  "You are an expert photo editor AI. Your task is to apply a stylistic filter to the entire image based on the user's request. Do not change the composition or content, only apply the style." ++ nl
  ++ "Filter Request: " ++ JS.dquote ++ filterPrompt ++ JS.dquote ++ nl
  ++ nl
  ++ "Safety & Ethics Policy:" ++ nl
  ++ "- Filters may subtly shift colors, but you MUST ensure they do not alter a person's fundamental race or ethnicity." ++ nl
  ++ "- YOU MUST REFUSE any request that explicitly asks to change a person's race (e.g., 'apply a filter to make me look Chinese')." ++ nl
  ++ nl
  ++ "Output: Return ONLY the final filtered image. Do not return text.".

(** The template literal [prompt] of lines 161-172. *)
Definition promptOfAdjustment (adjustmentPrompt : string) : string :=
  "You are an expert photo editor AI. Your task is to perform a natural, global adjustment to the entire image based on the user's request." ++ nl
  ++ "User Request: " ++ JS.dquote ++ adjustmentPrompt ++ JS.dquote ++ nl
  ++ nl
  ++ "Editing Guidelines:" ++ nl
  ++ "- The adjustment must be applied across the entire image." ++ nl
  ++ "- The result must be photorealistic." ++ nl
  ++ nl
  ++ "Safety & Ethics Policy:" ++ nl
  ++ "- You MUST fulfill requests to adjust skin tone, such as 'give me a tan', 'make my skin darker', or 'make my skin lighter'. These are considered standard photo enhancements." ++ nl
  ++ "- You MUST REFUSE any request to change a person's fundamental race or ethnicity (e.g., 'make me look Asian', 'change this person to be Black'). Do not perform these edits. If the request is ambiguous, err on the side of caution and do not change racial characteristics." ++ nl
  ++ nl
  ++ "Output: Return ONLY the final adjusted image. Do not return text.".

(** The template literal [prompt] of lines 204-219. *)
Definition promptOfAd (adPrompt : string) (brandColors : list string) : string :=
  "You are a professional graphic designer AI. Your task is to create a visually appealing and professional advertisement flyer based on the provided logo and user specifications." ++ nl
  ++ nl
  ++ "User Specifications:" ++ nl
  ++ "---" ++ nl
  ++ adPrompt ++ nl
  ++ "---" ++ nl
  ++ nl
  ++ "Brand Colors:" ++ nl
  ++ "- The primary colors for this design MUST be: " ++ join ", " brandColors ++ ". Use these colors for backgrounds, text, and accents as appropriate to create a cohesive and on-brand design." ++ nl
  ++ nl
  ++ "Design Instructions:" ++ nl
  ++ "- Use the provided image as the primary logo for the clinic. Integrate it naturally into the design." ++ nl
  ++ "- Strictly follow all layout, color theme, and content requirements mentioned in the specifications. The specified brand colors are the most important constraint." ++ nl
  ++ "- Generate a complete, high-quality flyer as a single image." ++ nl
  ++ nl
  ++ "Output: Return ONLY the final generated advertisement image. Do not return text.".

(** The template literal [prompt] of lines 247-264. *)
Definition promptOfLogos (logoData : LogoData.t) : string :=
  nl
  ++ "        You are an expert logo designer AI. Your task is to generate 4 unique, professional logo concepts for a brand based on the following specifications." ++ nl
  ++ "        Each logo should be presented on a clean, plain, light grey background (hex #f0f0f0). Do not include any text other than the brand name and slogan if provided." ++ nl
  ++ nl
  ++ "        **Brand Specifications:**" ++ nl
  ++ "        - **Brand Name:** " ++ LogoData.name logoData ++ nl
  ++ "        - **Slogan (optional):** " ++ JS.or_else (Some (LogoData.slogan logoData)) "None" ++ nl
  ++ "        - **Industry:** " ++ LogoData.industry logoData ++ nl
  ++ "        - **Preferred Styles:** " ++ join ", " (LogoData.styles logoData) ++ nl
  ++ "        - **Color Preferences:** " ++ LogoData.colors logoData ++ nl
  ++ "        - **Iconography Style:** " ++ LogoData.iconography logoData ++ nl
  ++ nl
  ++ "        **Output Instructions:**" ++ nl
  ++ "        - Create 4 distinct logo variations." ++ nl
  ++ "        - Ensure high-quality, modern design principles." ++ nl
  ++ "        - The logos must be clear and legible." ++ nl
  ++ "        - Do not show the logos on mockups (like business cards or signs), just the logo itself on the plain background." ++ nl
  ++ "    ".

(** The template literal [prompt] of lines 298-307. *)
Definition promptOfMockup (mockupPrompt : string) : string :=
  "You are a photorealistic mockup generator AI. Your task is to take the provided image asset (e.g., a logo) and seamlessly place it onto the scene described by the user." ++ nl
  ++ nl
  ++ "User Scene Description: " ++ JS.dquote ++ mockupPrompt ++ JS.dquote ++ nl
  ++ nl
  ++ "**Instructions:**" ++ nl
  ++ "- The final image must be photorealistic." ++ nl
  ++ "- Pay close attention to perspective, lighting, shadows, and textures to make the asset look like it's naturally part of the scene." ++ nl
  ++ "- Do not add any text or annotations unless requested in the scene description." ++ nl
  ++ nl
  ++ "Output: Return ONLY the final generated mockup image. Do not return text.".

Section GenerationOperations.

(** The browser and the service client, as the operations use them:
    - [readAsDataURL], as for [fileToPart];
    - [numberToString], the conversion of a [number] inside a template
      literal;
    - [newGoogleGenAI], the constructor [new GoogleGenAI(...)], which may
      throw;
    - [generateContent], the awaited call [ai.models.generateContent]. *)
Variable File : Type.
Variable readAsDataURL : File -> Outcome string.
Variable Number : Type.
Variable numberToString : Number -> string.
Variable Client : Type.
Variable newGoogleGenAI : Outcome Client.
Variable generateContent : Client -> GenerateContentRequest -> Outcome GenerateContentResponse.

(** What an operation does besides resolving. *)
Inductive Effect : Type :=
| Log (message : string)
| LogHotspot (message : string) (hotspot : Hotspot.t Number)
| LogResponse (message : string) (response : GenerateContentResponse)
| FromClassifier (entry : LogEntry)
| Sent (request : GenerateContentRequest).

Definition Run (A : Type) : Type := (list Effect * Outcome A)%type.

Definition bind {A B : Type} (m : Run A) (k : A -> Run B) : Run B :=
  match m with
  | (trace, Returns a) => let (trace', outcome) := k a in ((trace ++ trace')%list, outcome)
  | (trace, Throws kind message) => (trace, Throws kind message)
  end.

(** [console.log(...)] and the like. *)
Definition tell (e : Effect) : Run unit := ([e], Returns tt).

(** A step without effect of its own: [await fileToPart(...)],
    [new GoogleGenAI(...)]. *)
Definition lift {A : Type} (o : Outcome A) : Run A := ([], o).

(** [await ai.models.generateContent(request)] *)
Definition send (ai : Client) (request : GenerateContentRequest)
  : Run GenerateContentResponse :=
  ([Sent request], generateContent ai request).

(** [return handleApiResponse(response, context)] *)
Definition classified (response : GenerateContentResponse) (context : string)
  : Run string :=
  let (log, outcome) := handleApiResponse response context in
  (map FromClassifier log, outcome).

Notation "x <- m ;; k" := (bind m (fun x => k))
  (at level 61, m at next level, right associativity).
Notation "m >> k" := (bind m (fun _ => k))
  (at level 61, right associativity).

Definition generateEditedImage (originalImage : File) (userPrompt : string)
  (hotspot : Hotspot.t Number) : Run string :=
  tell (LogHotspot "Starting generative edit at:" hotspot) >>
  ai <- lift newGoogleGenAI ;;
  originalImagePart <- lift (fileToPart File readAsDataURL originalImage) ;;
  let prompt := promptOfEdit userPrompt (numberToString (Hotspot.x hotspot))
                  (numberToString (Hotspot.y hotspot)) in
  let textPart := TextPart prompt in
  tell (Log "Sending image and prompt to the model...") >>
  response <- send ai {| model := "gemini-2.5-flash-image-preview";
                         contents := [ImagePart originalImagePart; textPart];
                         responseModalities := [IMAGE; TEXT] |} ;;
  tell (LogResponse "Received response from model." response) >>
  classified response "edit".

Definition generateFilteredImage (originalImage : File) (filterPrompt : string)
  : Run string :=
  tell (Log ("Starting filter generation: " ++ filterPrompt)) >>
  ai <- lift newGoogleGenAI ;;
  originalImagePart <- lift (fileToPart File readAsDataURL originalImage) ;;
  let prompt := promptOfFilter filterPrompt in
  let textPart := TextPart prompt in
  tell (Log "Sending image and filter prompt to the model...") >>
  response <- send ai {| model := "gemini-2.5-flash-image-preview";
                         contents := [ImagePart originalImagePart; textPart];
                         responseModalities := [IMAGE; TEXT] |} ;;
  tell (LogResponse "Received response from model for filter." response) >>
  classified response "filter".

Definition generateAdjustedImage (originalImage : File) (adjustmentPrompt : string)
  : Run string :=
  tell (Log ("Starting global adjustment generation: " ++ adjustmentPrompt)) >>
  ai <- lift newGoogleGenAI ;;
  originalImagePart <- lift (fileToPart File readAsDataURL originalImage) ;;
  let prompt := promptOfAdjustment adjustmentPrompt in
  let textPart := TextPart prompt in
  tell (Log "Sending image and adjustment prompt to the model...") >>
  response <- send ai {| model := "gemini-2.5-flash-image-preview";
                         contents := [ImagePart originalImagePart; textPart];
                         responseModalities := [IMAGE; TEXT] |} ;;
  tell (LogResponse "Received response from model for adjustment." response) >>
  classified response "adjustment".

Definition generateAdImage (logoImage : File) (adPrompt : string)
  (brandColors : list string) : Run string :=
  tell (Log ("Starting ad generation with prompt and "
               ++ lengthToString (length brandColors) ++ " colors.")) >>
  ai <- lift newGoogleGenAI ;;
  logoImagePart <- lift (fileToPart File readAsDataURL logoImage) ;;
  let prompt := promptOfAd adPrompt brandColors in
  let textPart := TextPart prompt in
  tell (Log "Sending logo and ad prompt to the model...") >>
  response <- send ai {| model := "gemini-2.5-flash-image-preview";
                         contents := [ImagePart logoImagePart; textPart];
                         responseModalities := [IMAGE; TEXT] |} ;;
  tell (LogResponse "Received response from model for ad." response) >>
  classified response "ad".

Definition generateMockup (assetFile : File) (mockupPrompt : string) : Run string :=
  tell (Log ("Starting mockup generation with prompt: " ++ mockupPrompt)) >>
  ai <- lift newGoogleGenAI ;;
  assetPart <- lift (fileToPart File readAsDataURL assetFile) ;;
  let prompt := promptOfMockup mockupPrompt in
  let textPart := TextPart prompt in
  tell (Log "Sending asset and mockup prompt to the model...") >>
  response <- send ai {| model := "gemini-2.5-flash-image-preview";
                         contents := [ImagePart assetPart; textPart];
                         responseModalities := [IMAGE; TEXT] |} ;;
  tell (LogResponse "Received response from model for mockup." response) >>
  classified response "mockup".

(** One of the five operations with its arguments, the image file aside. *)
Inductive Operation : Type :=
| EditedImage (userPrompt : string) (hotspot : Hotspot.t Number)
| FilteredImage (filterPrompt : string)
| AdjustedImage (adjustmentPrompt : string)
| AdImage (adPrompt : string) (brandColors : list string)
| Mockup (mockupPrompt : string).

Definition perform (op : Operation) (image : File) : Run string :=
  match op with
  | EditedImage userPrompt hotspot => generateEditedImage image userPrompt hotspot
  | FilteredImage filterPrompt => generateFilteredImage image filterPrompt
  | AdjustedImage adjustmentPrompt => generateAdjustedImage image adjustmentPrompt
  | AdImage adPrompt brandColors => generateAdImage image adPrompt brandColors
  | Mockup mockupPrompt => generateMockup image mockupPrompt
  end.

(** The context that the operation hands to [handleApiResponse]. *)
Definition contextOf (op : Operation) : string :=
  match op with
  | EditedImage _ _ => "edit"
  | FilteredImage _ => "filter"
  | AdjustedImage _ => "adjustment"
  | AdImage _ _ => "ad"
  | Mockup _ => "mockup"
  end.

(** The instruction that the operation sends. *)
Definition instructionOf (op : Operation) : string :=
  match op with
  | EditedImage userPrompt hotspot =>
      promptOfEdit userPrompt (numberToString (Hotspot.x hotspot))
        (numberToString (Hotspot.y hotspot))
  | FilteredImage filterPrompt => promptOfFilter filterPrompt
  | AdjustedImage adjustmentPrompt => promptOfAdjustment adjustmentPrompt
  | AdImage adPrompt brandColors => promptOfAd adPrompt brandColors
  | Mockup mockupPrompt => promptOfMockup mockupPrompt
  end.

(** The text that the user typed. *)
Definition userTextOf (op : Operation) : string :=
  match op with
  | EditedImage userPrompt _ => userPrompt
  | FilteredImage filterPrompt => filterPrompt
  | AdjustedImage adjustmentPrompt => adjustmentPrompt
  | AdImage adPrompt _ => adPrompt
  | Mockup mockupPrompt => mockupPrompt
  end.

(** The requests of a trace, in order. *)
Fixpoint requestsOf (trace : list Effect) : list GenerateContentRequest :=
  match trace with
  | [] => []
  | Sent request :: trace' => request :: requestsOf trace'
  | _ :: trace' => requestsOf trace'
  end.

End GenerationOperations.

(** ** The request of [generateLogos] *)

(** The argument that [generateLogos] passes to [ai.models.generateImages]
    (src/services/geminiService.ts, lines 266-274). *)
Definition logoRequest (logoData : LogoData.t) : GenerateImagesRequest :=
  {| imagesModel := "imagen-4.0-generate-001";
     imagesPrompt := promptOfLogos logoData;
     numberOfImages := 4;
     outputMimeType := "image/png";
     aspectRatio := "1:1" |}.

(** [generateLogos] with its client and its request: the trace holds what
    the operation logs and sends.  The response is handled by [generateLogos]
    above, whose service call is here the call of [ai.models.generateImages]
    on [logoRequest logoData]. *)
Inductive LogoEffect : Type :=
| LogLogoData (message : string) (logoData : LogoData.t)
| SentImages (request : GenerateImagesRequest).

Section LogoOperationRun.

(** [newGoogleGenAI] and [generateImages]: the constructor
    [new GoogleGenAI(...)] and the awaited call [ai.models.generateImages]. *)
Variable Client : Type.
Variable newGoogleGenAI : Outcome Client.
Variable generateImages : Client -> GenerateImagesRequest -> Outcome GenerateImagesResponse.

Definition generateLogosRun (logoData : LogoData.t)
  : list LogoEffect * Outcome (list string) :=
  let started := LogLogoData "Starting logo generation with data:" logoData in
  match newGoogleGenAI with
  | Throws kind message => ([started], Throws kind message)
  | Returns ai =>
      ([started; SentImages (logoRequest logoData)],
       generateLogos LogoData.t (fun d => generateImages ai (logoRequest d)) logoData)
  end.

(** The requests of a trace, in order. *)
Fixpoint imagesRequestsOf (trace : list LogoEffect) : list GenerateImagesRequest :=
  match trace with
  | [] => []
  | SentImages request :: trace' => request :: imagesRequestsOf trace'
  | _ :: trace' => imagesRequestsOf trace'
  end.

End LogoOperationRun.

(** A service that answers every request for images with [response]. *)
Definition answersImages (response : GenerateImagesResponse)
  (_ : unit) (_ : GenerateImagesRequest) : Outcome GenerateImagesResponse :=
  Returns response.

(** ** What a component sees of an awaited call

    [Fulfilled] is the value of the [try] block; the two others are what
    [catch (err)] tells apart with [err instanceof Error]. *)
Inductive Settled (A : Type) : Type :=
| Fulfilled (value : A)
| RejectedError (message : string)
| RejectedOther.

Arguments Fulfilled {A} value.
Arguments RejectedError {A} message.
Arguments RejectedOther {A}.

(** [err instanceof Error ? err.message : 'An unknown error occurred.'] *)
Definition messageOf {A : Type} (settled : Settled A) : string :=
  match settled with
  | RejectedError message => message
  | _ => "An unknown error occurred."
  end.

(** [xs.includes(v)] on an array of strings. *)
Definition arrayIncludes (xs : list string) (v : string) : bool :=
  existsb (String.eqb v) xs.

(** [xs.filter(x => x !== v)] *)
Definition without (v : string) (xs : list string) : list string :=
  filter (fun x => negb (String.eqb x v)) xs.

(** ** The component [GenerateAdPanel] (src/components/GenerateAdPanel.tsx) *)

Module GenerateAdPanel.

(** [[0-9A-F]] under the flag [i]. *)
Definition isHexDigit (c : ascii) : bool :=
  let n := nat_of_ascii c in
  (((48 <=? n) && (n <=? 57)) || ((65 <=? n) && (n <=? 70))
   || ((97 <=? n) && (n <=? 102)))%nat.

(** [[0-9A-F]{3}] at the head of [s]: what follows the three digits. *)
Definition hex3 (s : string) : option string :=
  match s with
  | String a (String b (String c rest)) =>
      if isHexDigit a && isHexDigit b && isHexDigit c then Some rest else None
  | _ => None
  end.

(** [/^#([0-9A-F]{3}){1,2}$/i.test(s)] *)
Definition hexColorTest (s : string) : bool :=
  match s with
  | String c rest =>
      Ascii.eqb c "#"
      && match hex3 rest with
         | Some EmptyString => true
         | Some rest' =>
             match hex3 rest' with
             | Some EmptyString => true
             | _ => false
             end
         | None => false
         end
  | EmptyString => false
  end.

Definition upperChar (c : ascii) : ascii :=
  let n := nat_of_ascii c in
  if ((97 <=? n) && (n <=? 122))%nat then ascii_of_nat (n - 32) else c.

(** [s.toUpperCase()], exact on the characters below U+0080; the component
    applies it to texts that passed [hexColorTest] only. *)
Fixpoint toUpperCase (s : string) : string :=
  match s with
  | EmptyString => EmptyString
  | String c s' => String (upperChar c) (toUpperCase s')
  end.

(** The state [newColor] of the panel and the property [brandColors], which
    the panel changes through [setBrandColors]. *)
Record State : Type := { newColor : string; brandColors : list string }.

Definition handleAddColor (s : State) : State :=
  if hexColorTest (newColor s)
     && negb (arrayIncludes (brandColors s) (toUpperCase (newColor s)))
  then {| newColor := "#";
          brandColors := (brandColors s ++ [toUpperCase (newColor s)])%list |}
  else s.

Definition handleRemoveColor (colorToRemove : string) (s : State) : State :=
  {| newColor := newColor s; brandColors := without colorToRemove (brandColors s) |}.

(** [handleGenerate]: whether [onGenerateAd] is called. *)
Definition handleGenerate {File : Type} (adPrompt : string) (logoForAd : option File)
  : bool :=
  JS.truthy (Some adPrompt) && match logoForAd with Some _ => true | None => false end.

(** The attribute [disabled] of the submit button. *)
Definition submitDisabled {File : Type} (isLoading : bool) (adPrompt : string)
  (logoForAd : option File) : bool :=
  isLoading || negb (JS.truthy (Some (JS.trim adPrompt)))
  || match logoForAd with Some _ => false | None => true end.

(** A colour as the panel stores it: [#] and three or six digits among
    [0-9A-F]. *)
Definition isUpperHexDigit (c : ascii) : bool :=
  let n := nat_of_ascii c in
  (((48 <=? n) && (n <=? 57)) || ((65 <=? n) && (n <=? 70)))%nat.

Definition storedColor (s : string) : Prop :=
  exists digits,
    s = String "#" digits
    /\ allChars isUpperHexDigit digits = true
    /\ (String.length digits = 3 \/ String.length digits = 6).

Definition wellKept (colors : list string) : Prop :=
  Forall storedColor colors /\ NoDup colors.

End GenerateAdPanel.

(** ** The page [MockupGenerator] (src/pages/MockupGenerator.tsx) *)

Module MockupGenerator.

Section Page.

Variable File : Type.

(** The state of the page; [assetPreviewUrl] and [isDraggingOver], which
    only style the view, are left out. *)
Record State : Type := {
  assetFile : option File;
  mockupPrompt : string;
  generatedMockup : option string;
  isLoading : bool;
  error : option string
}.

Definition initial : State :=
  {| assetFile := None; mockupPrompt := ""; generatedMockup := None;
     isLoading := false; error := None |}.

Definition handleFileSelect (files : option (list File)) (s : State) : State :=
  match files ?> JS.first with
  | Some file =>
      {| assetFile := Some file; mockupPrompt := mockupPrompt s;
         generatedMockup := None; isLoading := isLoading s; error := None |}
  | None => s
  end.

(** [setAssetFile(null)], the button [Replace asset]. *)
Definition replaceAsset (s : State) : State :=
  {| assetFile := None; mockupPrompt := mockupPrompt s;
     generatedMockup := generatedMockup s; isLoading := isLoading s;
     error := error s |}.

Definition setMockupPrompt (value : string) (s : State) : State :=
  {| assetFile := assetFile s; mockupPrompt := value;
     generatedMockup := generatedMockup s; isLoading := isLoading s;
     error := error s |}.

(** [setError(null)], the button [OK]. *)
Definition dismissError (s : State) : State :=
  {| assetFile := assetFile s; mockupPrompt := mockupPrompt s;
     generatedMockup := generatedMockup s; isLoading := isLoading s;
     error := None |}.

(** [handleGenerate] up to its [await]: [None] when it returns at once. *)
Definition handleGenerate (s : State) : option State :=
  match assetFile s with
  | Some _ =>
      if JS.truthy (Some (mockupPrompt s)) then
        Some {| assetFile := assetFile s; mockupPrompt := mockupPrompt s;
                generatedMockup := None; isLoading := true; error := None |}
      else None
  | None => None
  end.

(** [handleGenerate] from its [await] on. *)
Definition handleGenerateSettled (settled : Settled string) (s : State) : State :=
  match settled with
  | Fulfilled mockupUrl =>
      {| assetFile := assetFile s; mockupPrompt := mockupPrompt s;
         generatedMockup := Some mockupUrl; isLoading := false; error := error s |}
  | _ =>
      {| assetFile := assetFile s; mockupPrompt := mockupPrompt s;
         generatedMockup := generatedMockup s; isLoading := false;
         error := Some (messageOf settled) |}
  end.

(** The attribute [disabled] of the button [Generate Mockup] and of the
    text area. *)
Definition generateDisabled (s : State) : bool :=
  isLoading s
  || match assetFile s with Some _ => false | None => true end
  || negb (JS.truthy (Some (JS.trim (mockupPrompt s)))).

Definition promptDisabled (s : State) : bool :=
  isLoading s || match assetFile s with Some _ => false | None => true end.

(** The four things that the output pane can show. *)
Definition showsSpinner (s : State) : bool := isLoading s.

Definition showsError (s : State) : bool := JS.truthy (error s).

Definition showsMockup (s : State) : bool :=
  negb (isLoading s) && negb (JS.truthy (error s)) && JS.truthy (generatedMockup s).

Definition showsPlaceholder (s : State) : bool :=
  negb (isLoading s) && negb (JS.truthy (error s))
  && negb (JS.truthy (generatedMockup s)).

Definition paneCount (s : State) : nat :=
  (Nat.b2n (showsSpinner s) + Nat.b2n (showsError s)
   + Nat.b2n (showsMockup s) + Nat.b2n (showsPlaceholder s))%nat.

(** What the user and the pending call can do to the page.  A file can be
    selected or replaced at any time here, which allows more than the view
    does; the other events are guarded as their elements are rendered. *)
Inductive Step : State -> State -> Prop :=
| SelectFile (files : option (list File)) (s : State) :
    Step s (handleFileSelect files s)
| ReplaceAsset (s : State) :
    Step s (replaceAsset s)
| TypePrompt (value : string) (s : State) :
    promptDisabled s = false -> Step s (setMockupPrompt value s)
| ClickGenerate (s s' : State) :
    generateDisabled s = false -> handleGenerate s = Some s' -> Step s s'
| Settle (settled : Settled string) (s : State) :
    isLoading s = true -> Step s (handleGenerateSettled settled s)
| ClickOk (s : State) :
    showsError s = true -> Step s (dismissError s).

Inductive Reachable : State -> Prop :=
| ReachInitial : Reachable initial
| ReachStep (s s' : State) : Reachable s -> Step s s' -> Reachable s'.

End Page.

End MockupGenerator.

(** ** The page [LogoGenerator] (src/pages/LogoGenerator.tsx) *)

Module LogoGenerator.

Definition styleOptions : list string :=
  ["Modern"; "Minimalist"; "Classic"; "Playful"; "Luxury"; "Bold"].

Definition iconOptions : list string :=
  ["Abstract Shape"; "Literal Icon (e.g., a tooth for a dentist)";
   "Letter Mark (using brand initials)"; "No icon, text only"].

Record State : Type := {
  step : Z;
  logoData : LogoData.t;
  generatedLogos : list string;
  isLoading : bool;
  error : option string
}.

Definition emptyLogoData : LogoData.t :=
  {| LogoData.name := ""; LogoData.slogan := ""; LogoData.industry := "";
     LogoData.styles := []; LogoData.colors := ""; LogoData.iconography := "" |}.

Definition initial : State :=
  {| step := 1; logoData := emptyLogoData; generatedLogos := [];
     isLoading := false; error := None |}.

Definition setStep (value : Z) (s : State) : State :=
  {| step := value; logoData := logoData s; generatedLogos := generatedLogos s;
     isLoading := isLoading s; error := error s |}.

Definition setLogoData (value : LogoData.t) (s : State) : State :=
  {| step := step s; logoData := value; generatedLogos := generatedLogos s;
     isLoading := isLoading s; error := error s |}.

Definition handleNext (s : State) : State := setStep (step s + 1) s.

Definition handleBack (s : State) : State := setStep (step s - 1) s.

Definition handleReset (s : State) : State :=
  {| step := 1; logoData := emptyLogoData; generatedLogos := [];
     isLoading := isLoading s; error := None |}.

(** The styles after [handleStyleToggle(style)]. *)
Definition toggle (style : string) (styles : list string) : list string :=
  if arrayIncludes styles style then without style styles
  else (styles ++ [style])%list.

Definition withStyles (styles : list string) (d : LogoData.t) : LogoData.t :=
  {| LogoData.name := LogoData.name d; LogoData.slogan := LogoData.slogan d;
     LogoData.industry := LogoData.industry d; LogoData.styles := styles;
     LogoData.colors := LogoData.colors d;
     LogoData.iconography := LogoData.iconography d |}.

Definition handleStyleToggle (style : string) (s : State) : State :=
  setLogoData (withStyles (toggle style (LogoData.styles (logoData s))) (logoData s)) s.

(** The [onChange] and [onClick] handlers of the five steps:
    [setLogoData({...logoData, field: value})]. *)
Definition withName (v : string) (d : LogoData.t) : LogoData.t :=
  {| LogoData.name := v; LogoData.slogan := LogoData.slogan d;
     LogoData.industry := LogoData.industry d; LogoData.styles := LogoData.styles d;
     LogoData.colors := LogoData.colors d;
     LogoData.iconography := LogoData.iconography d |}.

Definition withSlogan (v : string) (d : LogoData.t) : LogoData.t :=
  {| LogoData.name := LogoData.name d; LogoData.slogan := v;
     LogoData.industry := LogoData.industry d; LogoData.styles := LogoData.styles d;
     LogoData.colors := LogoData.colors d;
     LogoData.iconography := LogoData.iconography d |}.

Definition withIndustry (v : string) (d : LogoData.t) : LogoData.t :=
  {| LogoData.name := LogoData.name d; LogoData.slogan := LogoData.slogan d;
     LogoData.industry := v; LogoData.styles := LogoData.styles d;
     LogoData.colors := LogoData.colors d;
     LogoData.iconography := LogoData.iconography d |}.

Definition withColors (v : string) (d : LogoData.t) : LogoData.t :=
  {| LogoData.name := LogoData.name d; LogoData.slogan := LogoData.slogan d;
     LogoData.industry := LogoData.industry d; LogoData.styles := LogoData.styles d;
     LogoData.colors := v; LogoData.iconography := LogoData.iconography d |}.

Definition withIconography (v : string) (d : LogoData.t) : LogoData.t :=
  {| LogoData.name := LogoData.name d; LogoData.slogan := LogoData.slogan d;
     LogoData.industry := LogoData.industry d; LogoData.styles := LogoData.styles d;
     LogoData.colors := LogoData.colors d; LogoData.iconography := v |}.

(** [handleGenerate] up to its [await]. *)
Definition handleGenerate (s : State) : State :=
  {| step := step s; logoData := logoData s; generatedLogos := generatedLogos s;
     isLoading := true; error := None |}.

(** [handleGenerate] from its [await] on; [step0] is the [step] that the
    handler closed over when the button was clicked. *)
Definition handleGenerateSettled (step0 : Z) (settled : Settled (list string))
  (s : State) : State :=
  match settled with
  | Fulfilled logos =>
      {| step := step0 + 1; logoData := logoData s; generatedLogos := logos;
         isLoading := false; error := error s |}
  | _ =>
      {| step := step s; logoData := logoData s; generatedLogos := generatedLogos s;
         isLoading := false; error := Some (messageOf settled) |}
  end.

(** The button [Try Again] of the error view. *)
Definition tryAgain (s : State) : State :=
  {| step := if (step s - 1 >? 0)%Z then step s - 1 else 1;
     logoData := logoData s; generatedLogos := generatedLogos s;
     isLoading := isLoading s; error := None |}.

(** What [renderContent] renders. *)
Inductive View : Type := Spinner | ErrorView | Results | Wizard.

Definition view (s : State) : View :=
  if isLoading s then Spinner
  else if JS.truthy (error s) then ErrorView
  else if (step s >? 5)%Z then Results
  else Wizard.

(** The attributes [disabled] of the buttons of the wizard. *)
Definition styleDisabled (style : string) (s : State) : bool :=
  negb (arrayIncludes (LogoData.styles (logoData s)) style)
  && (3 <=? length (LogoData.styles (logoData s)))%nat.

Definition backDisabled (s : State) : bool := (step s =? 1)%Z.

Definition nextDisabled (s : State) : bool :=
  negb (JS.truthy (Some (LogoData.name (logoData s)))).

Definition generateDisabled (s : State) : bool :=
  negb (JS.truthy (Some (LogoData.iconography (logoData s)))).

Section Page.

(** [generateLogos] as the page imports it, over the service call. *)
Variable generateImages : LogoData.t -> Outcome GenerateImagesResponse.

(** The page and the call that it awaits, if any: the [step] and the
    [logoData] that [handleGenerate] closed over. *)
Record Machine : Type := {
  ui : State;
  pending : option (Z * LogoData.t)
}.

Definition start : Machine := {| ui := initial; pending := None |}.

Definition idle (s : State) : Machine := {| ui := s; pending := None |}.

(** What the service call can settle to for the data [d]: a fulfilled
    promise holds what [generateLogos] returns; a rejection may be an
    [Error] or something else. *)
Definition settlesTo (d : LogoData.t) (settled : Settled (list string)) : Prop :=
  match settled with
  | Fulfilled logos => generateLogos LogoData.t generateImages d = Returns logos
  | _ => exists kind message,
           generateLogos LogoData.t generateImages d = Throws kind message
  end.

(** What the user and the pending call can do, each event guarded as its
    element is rendered and enabled. *)
Inductive Step : Machine -> Machine -> Prop :=
| TypeName (v : string) (s : State) :
    view s = Wizard -> step s = 1%Z ->
    Step (idle s) (idle (setLogoData (withName v (logoData s)) s))
| TypeSlogan (v : string) (s : State) :
    view s = Wizard -> step s = 1%Z ->
    Step (idle s) (idle (setLogoData (withSlogan v (logoData s)) s))
| TypeIndustry (v : string) (s : State) :
    view s = Wizard -> step s = 2%Z ->
    Step (idle s) (idle (setLogoData (withIndustry v (logoData s)) s))
| ClickStyle (style : string) (s : State) :
    view s = Wizard -> step s = 3%Z -> In style styleOptions ->
    styleDisabled style s = false ->
    Step (idle s) (idle (handleStyleToggle style s))
| TypeColors (v : string) (s : State) :
    view s = Wizard -> step s = 4%Z ->
    Step (idle s) (idle (setLogoData (withColors v (logoData s)) s))
| ClickIcon (icon : string) (s : State) :
    view s = Wizard -> step s = 5%Z -> In icon iconOptions ->
    Step (idle s) (idle (setLogoData (withIconography icon (logoData s)) s))
| ClickBack (s : State) :
    view s = Wizard -> backDisabled s = false ->
    Step (idle s) (idle (handleBack s))
| ClickNext (s : State) :
    view s = Wizard -> (step s < 5)%Z -> nextDisabled s = false ->
    Step (idle s) (idle (handleNext s))
| ClickGenerate (s : State) :
    view s = Wizard -> step s = 5%Z -> generateDisabled s = false ->
    Step (idle s)
         {| ui := handleGenerate s; pending := Some (step s, logoData s) |}
| Settle (step0 : Z) (d : LogoData.t) (settled : Settled (list string)) (s : State) :
    settlesTo d settled ->
    Step {| ui := s; pending := Some (step0, d) |}
         (idle (handleGenerateSettled step0 settled s))
| ClickTryAgain (s : State) :
    view s = ErrorView -> Step (idle s) (idle (tryAgain s))
| ClickStartOver (s : State) :
    view s = Results -> Step (idle s) (idle (handleReset s)).

Inductive Reachable : Machine -> Prop :=
| ReachStart : Reachable start
| ReachStep (m m' : Machine) : Reachable m -> Step m m' -> Reachable m'.

End Page.

End LogoGenerator.

(** ** Views and samples for the further properties *)

(** The parts of the first candidate, none when there is no candidate. *)
Definition firstCandidateParts (r : GenerateContentResponse) : list Part :=
  match candidates r ?> JS.first with
  | Some c => partsOf c
  | None => []
  end.

(** [response.candidates?.[0]?.finishReason] *)
Definition finishReasonOf (r : GenerateContentResponse) : option string :=
  candidates r ?> JS.first ?> finishReason.

Definition semicolonFree (s : string) : bool :=
  allChars (fun c => negb (Ascii.eqb c ";")) s.

(** A client that is always built and a service that always answers with
    [response]. *)
Definition readyClient : Outcome unit := Returns tt.

Definition answersWith (response : GenerateContentResponse)
  (_ : unit) (_ : GenerateContentRequest) : Outcome GenerateContentResponse :=
  Returns response.

Definition sampleLogoData : LogoData.t :=
  {| LogoData.name := "SparkleClean"; LogoData.slogan := "";
     LogoData.industry := "Cleaning Service";
     LogoData.styles := ["Modern"; "Bold"];
     LogoData.colors := "shades of blue and silver";
     LogoData.iconography := "Abstract Shape" |}.

(** What every reachable state of the mockup page satisfies. *)
Definition mockupInvariant (File : Type) (s : MockupGenerator.State File) : Prop :=
  (MockupGenerator.isLoading File s = true ->
   MockupGenerator.error File s = None
   /\ MockupGenerator.generatedMockup File s = None)
  /\ (MockupGenerator.error File s <> None ->
      MockupGenerator.generatedMockup File s = None).

(** A visit of the mockup page: a file is selected, a scene is described,
    the generation is started and fails. *)
Definition mockupAfterFailure : MockupGenerator.State string :=
  MockupGenerator.handleGenerateSettled string (RejectedError "Invalid data URL")
    {| MockupGenerator.assetFile := Some "logo.png";
       MockupGenerator.mockupPrompt := "On a black t-shirt";
       MockupGenerator.generatedMockup := None;
       MockupGenerator.isLoading := true;
       MockupGenerator.error := None |}.

(** The styles that the wizard can hold: at most three, each once, among
    the six options. *)
Definition stylesKept (styles : list string) : Prop :=
  (length styles <= 3)%nat /\ NoDup styles /\ incl styles LogoGenerator.styleOptions.

(** A data URL of a PNG image. *)
Definition pngUrl (url : string) : Prop :=
  String.prefix "data:image/png;base64," url = true.

(** What every reachable state of the logo page satisfies. *)
Definition logoInvariant (m : LogoGenerator.Machine) : Prop :=
  let s := LogoGenerator.ui m in
  (1 <= LogoGenerator.step s <= 6)%Z
  /\ ((2 <= LogoGenerator.step s)%Z -> LogoData.name (LogoGenerator.logoData s) <> "")
  /\ stylesKept (LogoData.styles (LogoGenerator.logoData s))
  /\ (LogoData.iconography (LogoGenerator.logoData s) = ""
      \/ In (LogoData.iconography (LogoGenerator.logoData s)) LogoGenerator.iconOptions)
  /\ (LogoGenerator.step s = 6%Z ->
      LogoGenerator.generatedLogos s <> []
      /\ Forall pngUrl (LogoGenerator.generatedLogos s))
  /\ match LogoGenerator.pending m with
     | Some (step0, d) =>
         LogoGenerator.isLoading s = true /\ LogoGenerator.error s = None
         /\ step0 = 5%Z /\ LogoGenerator.step s = 5%Z
         /\ d = LogoGenerator.logoData s
         /\ LogoData.iconography d <> ""
     | None => LogoGenerator.isLoading s = false
     end.

(** A visit of the logo page: a name is typed, the wizard is walked to its
    last step, an iconography is chosen and the generation is started. *)
Definition logoNamed : LogoGenerator.State :=
  LogoGenerator.setLogoData
    (LogoGenerator.withName "Acme" (LogoGenerator.logoData LogoGenerator.initial))
    LogoGenerator.initial.

Definition logoAtStep5 : LogoGenerator.State :=
  LogoGenerator.handleNext
    (LogoGenerator.handleNext
       (LogoGenerator.handleNext (LogoGenerator.handleNext logoNamed))).

Definition logoChosen : LogoGenerator.State :=
  LogoGenerator.setLogoData
    (LogoGenerator.withIconography "Abstract Shape" (LogoGenerator.logoData logoAtStep5))
    logoAtStep5.

Definition logoRequested : LogoGenerator.Machine :=
  {| LogoGenerator.ui := LogoGenerator.handleGenerate logoChosen;
     LogoGenerator.pending :=
       Some (LogoGenerator.step logoChosen, LogoGenerator.logoData logoChosen) |}.

Definition logoShown : LogoGenerator.Machine :=
  LogoGenerator.idle
    (LogoGenerator.handleGenerateSettled (LogoGenerator.step logoChosen)
       (Fulfilled ["data:image/png;base64,AAAA"; "data:image/png;base64,BBBB"])
       (LogoGenerator.handleGenerate logoChosen)).

(** A service that answers every logo request with [twoLogos]. *)
Definition twoLogosService (_ : LogoData.t) : Outcome GenerateImagesResponse :=
  Returns twoLogos.

(** ** Basic facts on strings *)

Lemma append_assoc (a b c : string) : (a ++ b) ++ c = a ++ (b ++ c).
Proof. induction a as [|x a IH]; simpl; [reflexivity | now rewrite IH]. Qed.

Lemma append_nil_r (a : string) : a ++ "" = a.
Proof. induction a as [|x a IH]; simpl; [reflexivity | now rewrite IH]. Qed.

Lemma includes_middle (pre s post : string) : JS.includes (pre ++ s ++ post) s.
Proof. now exists pre, post. Qed.

Lemma includes_append_l (pre hay s : string) :
  JS.includes hay s -> JS.includes (pre ++ hay) s.
Proof.
  intros (a & b & ->). exists (pre ++ a), b. now rewrite append_assoc.
Qed.

Lemma truthy_nonempty (s : string) : s <> "" -> JS.truthy (Some s) = true.
Proof. destruct s; [congruence | reflexivity]. Qed.

Lemma truthy_false_iff (v : option string) :
  JS.truthy v = false <-> v = None \/ v = Some "".
Proof.
  destruct v as [[|c s]|]; simpl; split; intros H; auto; try discriminate.
  destruct H as [H|H]; discriminate.
Qed.

Lemma or_else_nonempty (s d : string) : s <> "" -> JS.or_else (Some s) d = s.
Proof. destruct s; [congruence | reflexivity]. Qed.

(** ** The four stages of [handleApiResponse] *)

Lemma find_first_inline (ps : list Part) (p : Part) (b : Blob) :
  firstInlineData ps p b -> find hasInlineData ps = Some p.
Proof.
  intros (before & after & -> & Hnone & Hp).
  induction Hnone as [|q before Hq _ IH]; simpl.
  - unfold hasInlineData. now rewrite Hp.
  - unfold hasInlineData at 1. now rewrite Hq.
Qed.

Lemma find_no_inline (ps : list Part) :
  noInlineData ps -> find hasInlineData ps = None.
Proof.
  induction 1 as [|q ps Hq _ IH]; simpl; [reflexivity|].
  unfold hasInlineData at 1. now rewrite Hq.
Qed.

Lemma find_inline_sound (ps : list Part) (p : Part) :
  find hasInlineData ps = Some p -> exists b, firstInlineData ps p b.
Proof.
  induction ps as [|q ps IH]; simpl; [discriminate|].
  unfold hasInlineData at 1.
  destruct (inlineData q) as [b|] eqn:Hq.
  - intros [= <-]. exists b, [], ps. repeat split; auto.
  - intros H. destruct (IH H) as (b & before & after & -> & Hnone & Hp).
    exists b, (q :: before), after. repeat split; auto.
Qed.

Lemma stage_blocked (r : GenerateContentResponse) (ctx : string) :
  JS.truthy (blockReasonOf r) = true ->
  handleApiResponse r ctx =
    let msg := "Request was blocked. Reason: " ++ JS.interp (blockReasonOf r) ++ ". "
                 ++ JS.or_else (promptFeedback r ?> blockReasonMessage) "" in
    ([ConsoleError msg r], Throws Blocked msg).
Proof.
  unfold handleApiResponse, blockReasonOf. intros ->. reflexivity.
Qed.

Lemma stage_image (r : GenerateContentResponse) (ctx : string) (b : Blob) :
  JS.truthy (blockReasonOf r) = false ->
  candidates r ?> JS.first ?> content ?> parts ?> find hasInlineData ?> inlineData = Some b ->
  handleApiResponse r ctx =
    ([ConsoleLog ("Received image data (" ++ mimeType b ++ ") for " ++ ctx)],
     Returns (dataUrlOf (mimeType b) (data b))).
Proof.
  unfold handleApiResponse, blockReasonOf. intros -> ->. reflexivity.
Qed.

Lemma stage_stopped (r : GenerateContentResponse) (ctx f : string) :
  JS.truthy (blockReasonOf r) = false ->
  candidates r ?> JS.first ?> content ?> parts ?> find hasInlineData ?> inlineData = None ->
  candidates r ?> JS.first ?> finishReason = Some f ->
  f <> "" -> f <> "STOP" ->
  classify r ctx =
    Throws StoppedEarly
      ("Image generation for " ++ ctx ++ " stopped unexpectedly. Reason: " ++ f
         ++ ". This often relates to safety settings.").
Proof.
  unfold classify, handleApiResponse, blockReasonOf. intros -> -> -> Hne Hstop.
  rewrite (truthy_nonempty _ Hne). unfold JS.differs.
  apply String.eqb_neq in Hstop. rewrite Hstop. reflexivity.
Qed.

Lemma stage_fallback (r : GenerateContentResponse) (ctx : string) :
  JS.truthy (blockReasonOf r) = false ->
  candidates r ?> JS.first ?> content ?> parts ?> find hasInlineData ?> inlineData = None ->
  JS.truthy (candidates r ?> JS.first ?> finishReason) = false
  \/ candidates r ?> JS.first ?> finishReason = Some "STOP" ->
  classify r ctx =
    Throws EmptyResult
      ("The AI model did not return an image for the " ++ ctx ++ ". "
         ++ (if JS.truthy (option_map JS.trim (text r))
             then "The model responded with text: " ++ JS.dquote
                    ++ JS.interp (option_map JS.trim (text r)) ++ JS.dquote
             else genericFeedback)).
Proof.
  unfold classify, handleApiResponse, blockReasonOf. intros -> -> [-> | ->]; reflexivity.
Qed.

Lemma image_path (r : GenerateContentResponse) (c : Candidate) (cs : list Candidate) :
  candidates r = Some (c :: cs) ->
  candidates r ?> JS.first ?> content ?> parts ?> find hasInlineData
  = find hasInlineData (partsOf c).
Proof.
  intros ->. unfold partsOf. simpl.
  destruct (content c) as [ct|]; simpl; [|reflexivity].
  destruct (parts ct); reflexivity.
Qed.

Lemma finish_path (r : GenerateContentResponse) (c : Candidate) (cs : list Candidate) :
  candidates r = Some (c :: cs) ->
  candidates r ?> JS.first ?> finishReason = finishReason c.
Proof. intros ->. reflexivity. Qed.

Lemma reportsNoBlock_falsy (r : GenerateContentResponse) :
  reportsNoBlock r -> JS.truthy (blockReasonOf r) = false.
Proof. intros H. now apply truthy_false_iff. Qed.

(** An image in the first candidate of an unblocked response is returned,
    whatever its media type and whatever the finish reason. *)
Lemma first_candidate_image (r : GenerateContentResponse) (ctx : string)
  (c : Candidate) (cs : list Candidate) (p : Part) (b : Blob) :
  reportsNoBlock r ->
  candidates r = Some (c :: cs) ->
  firstInlineData (partsOf c) p b ->
  classify r ctx = Returns (dataUrlOf (mimeType b) (data b)).
Proof.
  intros Hnb Hc Hp. unfold classify.
  rewrite (stage_image r ctx b); [reflexivity | now apply reportsNoBlock_falsy |].
  rewrite (image_path _ _ _ Hc), (find_first_inline _ _ _ Hp). simpl.
  now destruct Hp as (_ & _ & _ & _ & ->).
Qed.

Lemma first_candidate_no_image (r : GenerateContentResponse)
  (c : Candidate) (cs : list Candidate) :
  candidates r = Some (c :: cs) ->
  noInlineData (partsOf c) ->
  candidates r ?> JS.first ?> content ?> parts ?> find hasInlineData ?> inlineData = None.
Proof.
  intros Hc Hn. now rewrite (image_path _ _ _ Hc), (find_no_inline _ Hn).
Qed.



(** What the image-present check finds, in terms of the parts of the
    first candidate. *)
Lemma image_path_first (r : GenerateContentResponse) :
  candidates r ?> JS.first ?> content ?> parts ?> find hasInlineData
  = find hasInlineData (firstCandidateParts r).
Proof.
  unfold firstCandidateParts, partsOf.
  destruct (candidates r ?> JS.first) as [c|]; simpl; [|reflexivity].
  destruct (content c) as [ct|]; simpl; [|reflexivity].
  destruct (parts ct); reflexivity.
Qed.

Lemma image_found_iff (r : GenerateContentResponse) (b : Blob) :
  candidates r ?> JS.first ?> content ?> parts ?> find hasInlineData ?> inlineData = Some b
  <-> exists p, firstInlineData (firstCandidateParts r) p b.
Proof.
  rewrite image_path_first. split.
  - destruct (find hasInlineData (firstCandidateParts r)) as [p|] eqn:Hfind;
      simpl; [|discriminate].
    intros Hb. exists p.
    destruct (find_inline_sound _ _ Hfind) as (b' & before & after & Heq & Hnone & Hp).
    exists before, after. repeat split; auto.
  - intros (p & Hp). rewrite (find_first_inline _ _ _ Hp). simpl.
    now destruct Hp as (_ & _ & _ & _ & ->).
Qed.

Lemma image_missing_iff (r : GenerateContentResponse) :
  candidates r ?> JS.first ?> content ?> parts ?> find hasInlineData ?> inlineData = None
  <-> noInlineData (firstCandidateParts r).
Proof.
  rewrite image_path_first. split.
  - induction (firstCandidateParts r) as [|q ps IH]; simpl; [constructor|].
    unfold hasInlineData at 1. destruct (inlineData q) as [b|] eqn:Hq; simpl.
    + rewrite Hq. discriminate.
    + intros H. constructor; [exact Hq | exact (IH H)].
  - intros H. now rewrite (find_no_inline _ H).
Qed.

(** ** ResponseClassifier: the prompt-block check *)

(** C1 (as amended): for every response whose promptFeedback carries a
    non-empty block reason, [handleApiResponse] throws the [Blocked] error;
    its message is built from the block reason and the block message alone
    and contains the block reason; the outcome is the same for every
    response with that prompt feedback, whatever its candidates, its text and
    the context. *)
Theorem blocked_when_block_reason_nonempty
  (r : GenerateContentResponse) (ctx : string) (pf : PromptFeedback) (br : string) :
  promptFeedback r = Some pf ->
  blockReason pf = Some br ->
  br <> "" ->
  let msg := "Request was blocked. Reason: " ++ br ++ ". "
               ++ JS.or_else (blockReasonMessage pf) "" in
  handleApiResponse r ctx = ([ConsoleError msg r], Throws Blocked msg)
  /\ JS.includes msg br
  /\ (forall r' ctx', promptFeedback r' = Some pf -> classify r' ctx' = Throws Blocked msg).
Proof.
  intros Hpf Hbr Hne msg.
  assert (Hstage : forall r' ctx', promptFeedback r' = Some pf ->
            handleApiResponse r' ctx' = ([ConsoleError msg r'], Throws Blocked msg)).
  { intros r' ctx' Hpf'. rewrite stage_blocked.
    - unfold blockReasonOf. rewrite Hpf'. simpl. rewrite Hbr. reflexivity.
    - unfold blockReasonOf. rewrite Hpf'. simpl. rewrite Hbr.
      now apply truthy_nonempty. }
  split; [now apply Hstage|]. split.
  - apply includes_middle.
  - intros r' ctx' Hpf'. unfold classify. now rewrite Hstage.
Qed.

Lemma blocked_when_block_reason_nonempty_witness :
  classify scenarioA "edit" = Throws Blocked "Request was blocked. Reason: SAFETY. ".
Proof.
  refine (proj2 (proj2 (blocked_when_block_reason_nonempty scenarioA "edit"
            {| blockReason := Some "SAFETY"; blockReasonMessage := None |} "SAFETY"
            eq_refl eq_refl _)) scenarioA "edit" eq_refl).
  discriminate.
Defined.

(** C1 (as stated) fails: a block reason that is present and empty does not
    block; the image of the candidate is returned. *)
Lemma blocked_as_stated_counterexample :
  blockReasonOf emptyBlockReason = Some ""
  /\ classify emptyBlockReason "edit" = Returns "data:image/png;base64,iVBORw"
  /\ ~ blockedAsStated emptyBlockReason "edit".
Proof.
  split; [reflexivity|]. split; [reflexivity|].
  intros H. destruct (H "" eq_refl) as (msg & Hc & _). discriminate Hc.
Qed.

(** C9: a response whose block reason is present and is the empty string is
    never resolved to [Blocked]; it is resolved as the same response with no
    prompt feedback is, by the three later checks:
    - image-present: when the first candidate holds a part with inline data,
      the data URL of the first such part is returned, and logged as received;
    - abnormal-stop: otherwise, when the finish reason of the first candidate
      is a non-empty string other than [STOP], the [StoppedEarly] error is
      thrown, with a message that names the context and the finish reason;
    - fallback: otherwise the [EmptyResult] error is thrown, with the trimmed
      free text of the response between double quotes when it is not empty and
      with the generic sentence when it is. *)
Theorem empty_block_reason_not_blocked
  (r : GenerateContentResponse) (ctx : string) (pf : PromptFeedback) :
  promptFeedback r = Some pf ->
  blockReason pf = Some "" ->
  (forall msg, classify r ctx <> Throws Blocked msg)
  /\ classify r ctx = classify (withoutPromptFeedback r) ctx
  /\ (forall p b,
        firstInlineData (firstCandidateParts r) p b ->
        handleApiResponse r ctx =
          ([ConsoleLog ("Received image data (" ++ mimeType b ++ ") for " ++ ctx)],
           Returns ("data:" ++ mimeType b ++ ";base64," ++ data b)))
  /\ (forall f,
        noInlineData (firstCandidateParts r) ->
        finishReasonOf r = Some f -> f <> "" -> f <> "STOP" ->
        classify r ctx =
          Throws StoppedEarly
            ("Image generation for " ++ ctx ++ " stopped unexpectedly. Reason: " ++ f
               ++ ". This often relates to safety settings."))
  /\ (noInlineData (firstCandidateParts r) ->
      finishReasonOf r = None \/ finishReasonOf r = Some ""
      \/ finishReasonOf r = Some "STOP" ->
      classify r ctx =
        Throws EmptyResult
          ("The AI model did not return an image for the " ++ ctx ++ ". "
             ++ match option_map JS.trim (text r) with
                | Some (String c t) =>
                    "The model responded with text: " ++ JS.dquote ++ String c t
                      ++ JS.dquote
                | _ =>
                    "This can happen due to safety filters or if the request is too complex. Please try rephrasing your prompt to be more direct."
                end)).
Proof.
  intros Hpf Hbr.
  assert (Hnb : JS.truthy (blockReasonOf r) = false).
  { unfold blockReasonOf. rewrite Hpf. simpl. now rewrite Hbr. }
  assert (Hstages :
            (exists b, handleApiResponse r ctx =
                         ([ConsoleLog ("Received image data (" ++ mimeType b ++ ") for "
                                         ++ ctx)],
                          Returns (dataUrlOf (mimeType b) (data b))))
            \/ (exists msg, classify r ctx = Throws StoppedEarly msg)
            \/ (exists msg, classify r ctx = Throws EmptyResult msg)).
  { destruct (candidates r ?> JS.first ?> content ?> parts ?> find hasInlineData
                ?> inlineData) as [b|] eqn:Himg.
    - left. exists b. now apply stage_image.
    - right. unfold classify, handleApiResponse. fold (blockReasonOf r).
      rewrite Hnb, Himg.
      destruct (JS.truthy (candidates r ?> JS.first ?> finishReason)
                && JS.differs (candidates r ?> JS.first ?> finishReason) "STOP");
        simpl; [left | right]; eexists; reflexivity. }
  split; [|split; [|split; [|split]]].
  - intros msg H. unfold classify in Hstages.
    destruct Hstages as [(b & Hb) | [(m & Hm) | (m & Hm)]].
    + unfold classify in H. rewrite Hb in H. discriminate H.
    + unfold classify in H. rewrite Hm in H. discriminate H.
    + unfold classify in H. rewrite Hm in H. discriminate H.
  - unfold classify, handleApiResponse, withoutPromptFeedback.
    fold (blockReasonOf r). rewrite Hnb. simpl.
    destruct (candidates r ?> JS.first ?> content ?> parts ?> find hasInlineData
                ?> inlineData); [reflexivity|].
    destruct (JS.truthy (candidates r ?> JS.first ?> finishReason)
              && JS.differs (candidates r ?> JS.first ?> finishReason) "STOP");
      reflexivity.
  - intros p b Hp. apply stage_image; [exact Hnb|].
    apply image_found_iff. now exists p.
  - intros f Hno Hf Hne Hstop.
    apply stage_stopped; auto. now apply image_missing_iff.
  - intros Hno Hfin.
    rewrite stage_fallback; [| exact Hnb | now apply image_missing_iff |].
    + destruct (option_map JS.trim (text r)) as [[|c t]|]; reflexivity.
    + unfold finishReasonOf in Hfin. destruct Hfin as [-> | [-> | ->]]; auto.
Qed.

Lemma empty_block_reason_not_blocked_witness :
  (forall msg, classify emptyBlockReason "edit" <> Throws Blocked msg)
  /\ classify emptyBlockReason "edit"
     = classify (withoutPromptFeedback emptyBlockReason) "edit"
  /\ handleApiResponse emptyBlockReason "edit" =
       ([ConsoleLog "Received image data (image/png) for edit"],
        Returns "data:image/png;base64,iVBORw").
Proof.
  destruct (empty_block_reason_not_blocked emptyBlockReason "edit"
              {| blockReason := Some ""; blockReasonMessage := Some "ignored" |}
              eq_refl eq_refl) as (Hnot & Hsame & Himage & _).
  split; [exact Hnot|]. split; [exact Hsame|].
  apply (Himage pngPart pngBlob). exists [], []. repeat split. constructor.
Defined.

(** ** ResponseClassifier: the image-present check *)

(** C2 (as amended): for every response that reports no block and whose
    first candidate holds at least one content segment with inline data,
    [handleApiResponse] returns the data URL
    [data:<mediatype>;base64,<payload>] made of the media type and the
    payload of the first such segment of the first candidate, whatever the
    finish reason of the candidate. *)
Theorem image_in_first_candidate_returned
  (r : GenerateContentResponse) (ctx : string)
  (c : Candidate) (cs : list Candidate) (p : Part) (b : Blob) :
  reportsNoBlock r ->
  candidates r = Some (c :: cs) ->
  firstInlineData (partsOf c) p b ->
  handleApiResponse r ctx =
    ([ConsoleLog ("Received image data (" ++ mimeType b ++ ") for " ++ ctx)],
     Returns ("data:" ++ mimeType b ++ ";base64," ++ data b)).
Proof.
  intros Hnb Hc Hp.
  rewrite (stage_image r ctx b); [reflexivity | now apply reportsNoBlock_falsy |].
  rewrite (image_path _ _ _ Hc), (find_first_inline _ _ _ Hp). simpl.
  now destruct Hp as (_ & _ & _ & _ & ->).
Qed.

Lemma image_in_first_candidate_returned_witness :
  handleApiResponse scenarioB "edit" =
    ([ConsoleLog "Received image data (image/png) for edit"],
     Returns "data:image/png;base64,iVBORw").
Proof.
  refine (image_in_first_candidate_returned scenarioB "edit"
            (candidateOf [plainPart; pngPart] (Some "SAFETY")) [] pngPart pngBlob
            (or_introl eq_refl) eq_refl _).
  exists [plainPart], []. repeat split. repeat constructor.
Defined.

(** C2 (as stated) fails: the response reports no block and holds an
    inline-data segment, in its second candidate; the segment is not found
    and the outcome is the fallback error. *)
Lemma success_as_stated_counterexample :
  blockReasonOf imageInSecondCandidate = None
  /\ firstInlineData (allParts imageInSecondCandidate) pngPart pngBlob
  /\ classify imageInSecondCandidate "edit" =
       Throws EmptyResult
         ("The AI model did not return an image for the edit. " ++ genericFeedback)
  /\ ~ successAsStated imageInSecondCandidate "edit".
Proof.
  assert (Hfirst : firstInlineData (allParts imageInSecondCandidate) pngPart pngBlob).
  { exists [plainPart], []. repeat split. repeat constructor. }
  repeat split; try assumption.
  intros H. specialize (H eq_refl pngPart pngBlob Hfirst). discriminate H.
Qed.

(** C10: the image-present check does not look at the media type: for every
    response that reports no block and whose first candidate's first
    inline-data part declares a media type outside [image/...],
    [handleApiResponse] still returns the data URL built from that media
    type and payload. *)
Theorem non_image_inline_data_returned
  (r : GenerateContentResponse) (ctx : string)
  (c : Candidate) (cs : list Candidate) (p : Part) (b : Blob) :
  reportsNoBlock r ->
  candidates r = Some (c :: cs) ->
  firstInlineData (partsOf c) p b ->
  isImageType (mimeType b) = false ->
  classify r ctx = Returns ("data:" ++ mimeType b ++ ";base64," ++ data b).
Proof.
  intros Hnb Hc Hp _. now apply first_candidate_image with (c := c) (cs := cs) (p := p).
Qed.

Lemma non_image_inline_data_returned_witness :
  isImageType "application/pdf" = false
  /\ classify pdfResponse "mockup" = Returns "data:application/pdf;base64,JVBERi0x".
Proof.
  split; [reflexivity|].
  refine (non_image_inline_data_returned pdfResponse "mockup"
            (candidateOf [{| inlineData :=
                               Some {| mimeType := "application/pdf";
                                       data := "JVBERi0x" |} |}] (Some "STOP"))
            [] _ {| mimeType := "application/pdf"; data := "JVBERi0x" |}
            (or_introl eq_refl) eq_refl _ eq_refl).
  exists [], []. repeat split. constructor.
Defined.

(** ** ResponseClassifier: the abnormal-stop check *)




(** ** [String.prototype.trim] *)

Lemma trimStart_decompose (s : string) :
  exists l, s = l ++ JS.trimStart s /\ allChars JS.is_space l = true.
Proof.
  induction s as [|c s (l & Hl & Hsp)]; simpl.
  - now exists "".
  - destruct (JS.is_space c) eqn:Hc.
    + exists (String c l). simpl. rewrite Hc, Hsp. now rewrite <- Hl.
    + now exists "".
Qed.

Lemma trimStart_head (s : string) : spaceAt (headChar (JS.trimStart s)) = false.
Proof.
  induction s as [|c s IH]; simpl; [reflexivity|].
  destruct (JS.is_space c) eqn:Hc; [exact IH | exact Hc].
Qed.

Lemma trimEnd_decompose (s : string) :
  exists r, s = JS.trimEnd s ++ r /\ allChars JS.is_space r = true.
Proof.
  induction s as [|c s (r & Hr & Hsp)]; simpl.
  - now exists "".
  - destruct (JS.trimEnd s) as [|d t] eqn:Ht.
    + simpl in Hr. subst r. destruct (JS.is_space c) eqn:Hc.
      * exists (String c s). simpl. now rewrite Hc, Hsp.
      * exists s. now split.
    + exists r. split; [|exact Hsp]. simpl. now rewrite Hr at 1.
Qed.

Lemma trimEnd_last (s : string) : spaceAt (lastChar (JS.trimEnd s)) = false.
Proof.
  induction s as [|c s IH]; simpl; [reflexivity|].
  destruct (JS.trimEnd s) as [|d t] eqn:Ht.
  - destruct (JS.is_space c) eqn:Hc; simpl; [reflexivity | exact Hc].
  - exact IH.
Qed.

Lemma trimEnd_head (s : string) :
  spaceAt (headChar s) = false -> spaceAt (headChar (JS.trimEnd s)) = false.
Proof.
  destruct s as [|c s]; simpl; [reflexivity|]. intros Hc.
  destruct (JS.trimEnd s); [rewrite Hc|]; simpl; auto.
Qed.

Lemma trimStart_id (s : string) : spaceAt (headChar s) = false -> JS.trimStart s = s.
Proof. destruct s as [|c s]; simpl; [reflexivity|]. now intros ->. Qed.

Lemma trimEnd_id (s : string) : spaceAt (lastChar s) = false -> JS.trimEnd s = s.
Proof.
  induction s as [|c s IH]; simpl; [reflexivity|].
  destruct s as [|d s'].
  - simpl. now intros ->.
  - intros H. rewrite (IH H). reflexivity.
Qed.

(** [trim] removes white space at both ends and nothing else. *)
Lemma trim_decompose (s : string) :
  exists l r,
    s = l ++ JS.trim s ++ r
    /\ allChars JS.is_space l = true
    /\ allChars JS.is_space r = true
    /\ spaceAt (headChar (JS.trim s)) = false
    /\ spaceAt (lastChar (JS.trim s)) = false.
Proof.
  unfold JS.trim.
  destruct (trimStart_decompose s) as (l & Hl & Hlsp).
  destruct (trimEnd_decompose (JS.trimStart s)) as (r & Hr & Hrsp).
  exists l, r. repeat split; auto.
  - now rewrite <- Hr.
  - apply trimEnd_head, trimStart_head.
  - apply trimEnd_last.
Qed.

(** A text without white space at its ends is its own trimmed text. *)
Lemma trim_id (s : string) :
  spaceAt (headChar s) = false -> spaceAt (lastChar s) = false -> JS.trim s = s.
Proof.
  intros Hh Hl. unfold JS.trim. rewrite (trimStart_id _ Hh). now apply trimEnd_id.
Qed.

(** ** ResponseClassifier: the fallback *)




(** The generic fallback message is not one fixed string: it names the
    context. *)
Example generic_message_names_context :
  classify emptyFinishReason "edit" <> classify emptyFinishReason "ad".
Proof. discriminate. Qed.

(** A free text made of white space only is not quoted. *)
Example blank_text_gets_generic_message :
  classify {| promptFeedback := None; candidates := None; text := Some "   " |} "edit"
  = Throws EmptyResult
      ("The AI model did not return an image for the edit. " ++ genericFeedback).
Proof. reflexivity. Qed.

(** ** ResponseClassifier: only the first candidate is read *)

(** C8: for every response that reports no block and whose first candidate
    has no inline-data part, [handleApiResponse] never returns: it throws the
    [StoppedEarly] or the [EmptyResult] error, whatever the later candidates
    hold, and resolves exactly as the response cut down to its first
    candidate does. *)
Theorem later_candidates_ignored
  (r : GenerateContentResponse) (ctx : string) (c : Candidate) (cs : list Candidate) :
  reportsNoBlock r ->
  candidates r = Some (c :: cs) ->
  noInlineData (partsOf c) ->
  (forall url, classify r ctx <> Returns url)
  /\ (exists msg, classify r ctx = Throws StoppedEarly msg
                  \/ classify r ctx = Throws EmptyResult msg)
  /\ classify r ctx = classify (firstCandidateOnly r) ctx.
Proof.
  intros Hnb Hc Hno.
  assert (Hcut : candidates (firstCandidateOnly r) = Some [c]).
  { unfold firstCandidateOnly. simpl. now rewrite Hc. }
  assert (Hnb' : JS.truthy (blockReasonOf r) = false) by now apply reportsNoBlock_falsy.
  assert (Himg := first_candidate_no_image r c cs Hc Hno).
  assert (Himg' := first_candidate_no_image (firstCandidateOnly r) c [] Hcut Hno).
  assert (Hfin := finish_path r c cs Hc).
  assert (Hfin' := finish_path (firstCandidateOnly r) c [] Hcut).
  unfold classify, handleApiResponse.
  fold (blockReasonOf r). fold (blockReasonOf (firstCandidateOnly r)).
  change (blockReasonOf (firstCandidateOnly r)) with (blockReasonOf r).
  rewrite Hnb', Himg, Himg', Hfin, Hfin'.
  destruct (JS.truthy (finishReason c) && JS.differs (finishReason c) "STOP");
    simpl; repeat split; try discriminate; eexists; eauto.
Qed.

Lemma later_candidates_ignored_witness :
  (forall url, classify imageInSecondCandidate "edit" <> Returns url)
  /\ (exists msg, classify imageInSecondCandidate "edit" = Throws StoppedEarly msg
                  \/ classify imageInSecondCandidate "edit" = Throws EmptyResult msg)
  /\ classify imageInSecondCandidate "edit"
     = classify (firstCandidateOnly imageInSecondCandidate) "edit".
Proof.
  refine (later_candidates_ignored imageInSecondCandidate "edit"
            (candidateOf [plainPart] (Some "STOP"))
            [candidateOf [pngPart] (Some "STOP")]
            (or_introl eq_refl) eq_refl _).
  repeat constructor.
Defined.

(** ** [split] and the expression [/:(.*?);/] *)

Lemma allChars_app (P : ascii -> bool) (a b : string) :
  allChars P (a ++ b) = allChars P a && allChars P b.
Proof.
  induction a as [|c a IH]; simpl; [reflexivity|]. now rewrite IH, andb_assoc.
Qed.

Lemma allChars_weaken (P Q : ascii -> bool) (s : string) :
  (forall c, P c = true -> Q c = true) -> allChars P s = true -> allChars Q s = true.
Proof.
  intros HPQ. induction s as [|c s IH]; simpl; [reflexivity|].
  intros [Hc Hs]%andb_prop. now rewrite (HPQ _ Hc), IH.
Qed.

Lemma split_not_nil (sep : ascii) (s : string) : JS.split sep s <> [].
Proof.
  destruct s as [|c s]; simpl; [discriminate|].
  destruct (Ascii.eqb c sep); [discriminate|].
  destruct (JS.split sep s); discriminate.
Qed.

(** Joining the segments with the separator gives the string back. *)
Lemma join_split (sep : ascii) (s : string) :
  join (String sep "") (JS.split sep s) = s.
Proof.
  induction s as [|c s IH]; simpl; [reflexivity|].
  destruct (Ascii.eqb_spec c sep) as [->|Hne].
  - pose proof (split_not_nil sep s) as Hnn.
    destruct (JS.split sep s) as [|seg segs]; [contradiction|].
    simpl. simpl in IH. now rewrite IH.
  - destruct (JS.split sep s) as [|seg [|seg' segs]]; simpl in *; now rewrite <- IH.
Qed.

(** No segment holds the separator. *)
Lemma split_segments_free (sep : ascii) (s : string) :
  Forall (fun seg => allChars (fun c => negb (Ascii.eqb c sep)) seg = true)
         (JS.split sep s).
Proof.
  induction s as [|c s IH]; simpl.
  - now constructor.
  - destruct (Ascii.eqb c sep) eqn:Hc.
    + now constructor.
    + destruct (JS.split sep s) as [|seg segs].
      * constructor; [simpl; now rewrite Hc | constructor].
      * inversion IH; subst. constructor; [simpl; now rewrite Hc | assumption].
Qed.

Lemma split_free (sep : ascii) (s : string) :
  allChars (fun c => negb (Ascii.eqb c sep)) s = true -> JS.split sep s = [s].
Proof.
  induction s as [|c s IH]; simpl; [reflexivity|].
  intros [Hc Hs]%andb_prop. apply negb_true_iff in Hc. rewrite Hc, (IH Hs). reflexivity.
Qed.

Lemma split_at_first (sep : ascii) (a b : string) :
  allChars (fun c => negb (Ascii.eqb c sep)) a = true ->
  JS.split sep (a ++ String sep b) = a :: JS.split sep b.
Proof.
  induction a as [|c a IH]; simpl.
  - intros _. now rewrite Ascii.eqb_refl.
  - intros [Hc Ha]%andb_prop. apply negb_true_iff in Hc. rewrite Hc, (IH Ha). reflexivity.
Qed.

(** Fewer than two segments: the string holds no separator. *)
Lemma split_single_iff (sep : ascii) (s : string) :
  (length (JS.split sep s) < 2)%nat
  <-> allChars (fun c => negb (Ascii.eqb c sep)) s = true.
Proof.
  split.
  - induction s as [|c s IH]; simpl; [reflexivity|].
    destruct (Ascii.eqb c sep) eqn:Hc; simpl.
    + pose proof (split_not_nil sep s). destruct (JS.split sep s); simpl; [contradiction | lia].
    + destruct (JS.split sep s) as [|seg segs] eqn:Hs; simpl in *; intros H; apply IH; lia.
  - intros H. rewrite (split_free _ _ H). simpl. lia.
Qed.

Lemma lazyToSemicolon_complete (t post : string) :
  allChars (fun c => negb (Ascii.eqb c ";" || JS.is_line_terminator c)) t = true ->
  lazyToSemicolon (t ++ String ";" post) = Some t.
Proof.
  induction t as [|c t IH]; simpl; [reflexivity|].
  intros [Hc Ht]%andb_prop. apply negb_true_iff, orb_false_iff in Hc as [Hs Hl].
  now rewrite Hs, Hl, (IH Ht).
Qed.

Lemma lazyToSemicolon_sound (s g : string) :
  lazyToSemicolon s = Some g ->
  exists post, s = g ++ String ";" post /\ lineFree g = true.
Proof.
  revert g. induction s as [|c s IH]; simpl; [discriminate|]. intros g.
  destruct (Ascii.eqb_spec c ";") as [->|Hne].
  - intros [= <-]. now exists s.
  - destruct (JS.is_line_terminator c) eqn:Hl; [discriminate|].
    destruct (lazyToSemicolon s) as [g'|]; [|discriminate].
    intros [= <-]. destruct (IH g' eq_refl) as (post & -> & Hfree).
    exists post. split; [reflexivity|]. unfold lineFree in *. simpl. now rewrite Hl, Hfree.
Qed.



(** What the expression finds is an occurrence of [:<type>;]. *)
Lemma matchMimePattern_sound (s : string) (m : RegExpMatch) :
  matchMimePattern s = Some m ->
  exists pre g post,
    m = {| matched := ":" ++ g ++ ";"; group1 := g |}
    /\ s = pre ++ ":" ++ g ++ ";" ++ post /\ lineFree g = true.
Proof.
  induction s as [|c s IH]; simpl; [discriminate|].
  destruct (Ascii.eqb_spec c ":") as [->|Hne].
  - destruct (lazyToSemicolon s) as [g|] eqn:Hl.
    + intros [= <-]. destruct (lazyToSemicolon_sound _ _ Hl) as (post & -> & Hfree).
      now exists "", g, post.
    + intros H. destruct (IH H) as (pre & g & post & -> & -> & Hfree).
      now exists (String ":" pre), g, post.
  - intros H. destruct (IH H) as (pre & g & post & -> & -> & Hfree).
    now exists (String c pre), g, post.
Qed.

(** On the head of a data URL the expression captures the media type. *)
Lemma matchMimePattern_data_url (m : string) :
  mediaTypeOk m = true ->
  matchMimePattern ("data:" ++ m ++ ";base64")
  = Some {| matched := ":" ++ m ++ ";"; group1 := m |}.
Proof.
  unfold mediaTypeOk. intros [_ Hm]%andb_prop. simpl.
  rewrite lazyToSemicolon_complete; [reflexivity|].
  apply allChars_weaken with (2 := Hm). intros c Hc.
  apply negb_true_iff, orb_false_iff in Hc as [[_ Hs]%orb_false_iff Hl].
  now rewrite Hs, Hl.
Qed.

Lemma mediaTypeOk_nonempty (m : string) : mediaTypeOk m = true -> m <> "".
Proof.
  unfold mediaTypeOk. intros [Hne _]%andb_prop.
  apply negb_true_iff in Hne. now apply String.eqb_neq.
Qed.

Lemma split_data_url (m p : string) :
  mediaTypeOk m = true ->
  JS.split "," (dataUrlOf m p) = ("data:" ++ m ++ ";base64") :: JS.split "," p.
Proof.
  intros Hm. unfold dataUrlOf.
  replace ("data:" ++ m ++ ";base64," ++ p)
    with (("data:" ++ m ++ ";base64") ++ String "," p).
  - apply split_at_first. simpl. rewrite allChars_app. apply andb_true_intro. split.
    + unfold mediaTypeOk in Hm. apply andb_prop in Hm as [_ Hm].
      apply allChars_weaken with (2 := Hm). intros c Hc.
      apply negb_true_iff, orb_false_iff in Hc as [[Hc _]%orb_false_iff _].
      now rewrite Hc.
    + reflexivity.
  - simpl. f_equal. f_equal. f_equal. f_equal. f_equal. now rewrite append_assoc.
Qed.

(** ** Base64 *)










(** ** RequestEncoder *)

Lemma fileToPart_data_url (File : Type) (readAsDataURL : File -> Outcome string)
  (file : File) (m p : string) :
  mediaTypeOk m = true ->
  readAsDataURL file = Returns (dataUrlOf m p) ->
  fileToPart File readAsDataURL file =
    Returns {| inlineData :=
                 Some {| mimeType := m; data := hd "" (JS.split "," p) |} |}.
Proof.
  intros Hm Hread. unfold fileToPart. rewrite Hread, (split_data_url m p Hm).
  pose proof (split_not_nil "," p) as Hnn.
  destruct (JS.split "," p) as [|seg segs] eqn:Hp; [contradiction|].
  rewrite (matchMimePattern_data_url m Hm). cbn [group1].
  rewrite (truthy_nonempty m (mediaTypeOk_nonempty m Hm)).
  reflexivity.
Qed.

Lemma fileToPart_comma_free_payload (File : Type)
  (readAsDataURL : File -> Outcome string) (file : File) (m p : string) :
  mediaTypeOk m = true ->
  commaFree p = true ->
  readAsDataURL file = Returns (dataUrlOf m p) ->
  fileToPart File readAsDataURL file =
    Returns {| inlineData := Some {| mimeType := m; data := p |} |}.
Proof.
  intros Hm Hp Hread.
  rewrite (fileToPart_data_url File readAsDataURL file m p Hm Hread).
  unfold commaFree in Hp. now rewrite (split_free _ _ Hp).
Qed.




(** The media type of an asset that declares none is not given back either:
    the reader writes [application/octet-stream] for it. *)
Example untyped_asset_reads_as_octet_stream :
  fileToPart ImageAsset browserRead untypedAsset =
    Returns {| inlineData :=
                 Some {| mimeType := "application/octet-stream"; data := "PHN2Zz4=" |} |}.
Proof. reflexivity. Qed.

(** A media type with a parameter is well-formed in a data URL as well;
    [fileToPart] keeps what stands before the first semicolon. *)
Example media_type_parameter_dropped :
  fileToPart string readsAs "data:image/svg+xml;charset=utf-8;base64,PHN2Zz4=" =
    Returns {| inlineData :=
                 Some {| mimeType := "image/svg+xml"; data := "PHN2Zz4=" |} |}.
Proof. reflexivity. Qed.



(** ** The multi-output logo operation *)

(** C6: once the service has answered, [generateLogos] throws the
    [EmptyResult] error with the fixed multi-output message if and only if
    the generated-images array is absent or empty; otherwise it returns one
    data URL [data:image/png;base64,<payload>] for each generated image, in
    the order of the array. *)
Theorem generateLogos_empty_iff (LogoData : Type)
  (generateImages : LogoData -> Outcome GenerateImagesResponse)
  (logoData : LogoData) (response : GenerateImagesResponse) :
  generateImages logoData = Returns response ->
  (generateLogos LogoData generateImages logoData = Throws EmptyResult noImagesMessage
   <-> generatedImages response = None \/ generatedImages response = Some [])
  /\ (forall imgs,
        generatedImages response = Some imgs -> imgs <> [] ->
        exists urls,
          generateLogos LogoData generateImages logoData = Returns urls
          /\ length urls = length imgs
          /\ forall i img, nth_error imgs i = Some img ->
               nth_error urls i
               = Some ("data:image/png;base64," ++ imageBytes (image img))).
Proof.
  intros Hcall. unfold generateLogos. rewrite Hcall. split.
  - destruct (generatedImages response) as [[|img imgs]|]; simpl; split; auto.
    + discriminate.
    + intros [H|H]; discriminate.
  - intros imgs -> Hne. destruct imgs as [|img imgs]; [contradiction|].
    eexists. split; [reflexivity|]. split.
    + now rewrite length_map.
    + intros i img' Hi. now rewrite nth_error_map, Hi.
Qed.

Lemma generateLogos_empty_iff_witness :
  generateLogos unit (answers scenarioE) tt = Throws EmptyResult noImagesMessage
  /\ exists urls,
       generateLogos unit (answers twoLogos) tt = Returns urls
       /\ length urls = 2
       /\ nth_error urls 1 = Some "data:image/png;base64,BBBB".
Proof.
  split.
  - apply (proj1 (generateLogos_empty_iff unit (answers scenarioE) tt scenarioE eq_refl)).
    now right.
  - destruct (proj2 (generateLogos_empty_iff unit (answers twoLogos) tt twoLogos eq_refl)
                [{| image := {| imageBytes := "AAAA" |} |};
                 {| image := {| imageBytes := "BBBB" |} |}] eq_refl)
      as (urls & Hret & Hlen & Hnth).
    + discriminate.
    + exists urls. split; [exact Hret|]. split; [exact Hlen|].
      exact (Hnth 1 {| image := {| imageBytes := "BBBB" |} |} eq_refl).
Defined.

(** * Further properties of the code *)

(** ** [handleApiResponse]: which responses resolve to what *)

(** X1: [handleApiResponse] returns exactly when no block is reported and
    the first candidate holds a part with inline data, and what it returns
    is the data URL of the first such part. *)
Theorem handleApiResponse_returns_iff
  (r : GenerateContentResponse) (ctx url : string) :
  classify r ctx = Returns url
  <-> reportsNoBlock r
      /\ exists p b,
           firstInlineData (firstCandidateParts r) p b
           /\ url = "data:" ++ mimeType b ++ ";base64," ++ data b.
Proof.
  split.
  - intros H. unfold classify, handleApiResponse in H.
    fold (blockReasonOf r) in H.
    destruct (JS.truthy (blockReasonOf r)) eqn:Hblock; [discriminate|].
    split; [now apply truthy_false_iff|].
    destruct (candidates r ?> JS.first ?> content ?> parts ?> find hasInlineData
                ?> inlineData) as [b|] eqn:Himg.
    + apply image_found_iff in Himg as (p & Hp). exists p, b. split; [exact Hp|].
      simpl in H. now injection H as <-.
    + destruct (JS.truthy (candidates r ?> JS.first ?> finishReason)
                && JS.differs (candidates r ?> JS.first ?> finishReason) "STOP");
        discriminate.
  - intros (Hnb & p & b & Hp & ->). unfold classify.
    rewrite (stage_image r ctx b); [reflexivity | now apply reportsNoBlock_falsy |].
    apply image_found_iff. now exists p.
Qed.

(** Every response falls under one of the four stages. *)
Lemma classify_cases (r : GenerateContentResponse) (ctx : string) :
  (exists br msg,
      blockReasonOf r = Some br /\ br <> "" /\ classify r ctx = Throws Blocked msg)
  \/ (reportsNoBlock r
      /\ exists p b url,
           firstInlineData (firstCandidateParts r) p b /\ classify r ctx = Returns url)
  \/ (reportsNoBlock r /\ noInlineData (firstCandidateParts r)
      /\ exists f msg,
           finishReasonOf r = Some f /\ f <> "" /\ f <> "STOP"
           /\ classify r ctx = Throws StoppedEarly msg)
  \/ (reportsNoBlock r /\ noInlineData (firstCandidateParts r)
      /\ (finishReasonOf r = None \/ finishReasonOf r = Some ""
          \/ finishReasonOf r = Some "STOP")
      /\ exists msg, classify r ctx = Throws EmptyResult msg).
Proof.
  destruct (JS.truthy (blockReasonOf r)) eqn:Hblock.
  - left. pose proof (stage_blocked r ctx Hblock) as Hstage.
    destruct (blockReasonOf r) as [[|c br]|]; try discriminate.
    exists (String c br). eexists. repeat split; [discriminate|].
    unfold classify. rewrite Hstage. reflexivity.
  - right. apply truthy_false_iff in Hblock as Hnb. fold (reportsNoBlock r) in Hnb.
    destruct (candidates r ?> JS.first ?> content ?> parts ?> find hasInlineData
                ?> inlineData) as [b|] eqn:Himg.
    + left. split; [exact Hnb|].
      pose proof (stage_image r ctx b Hblock Himg) as Hstage.
      apply image_found_iff in Himg as (p & Hp).
      exists p, b. eexists. split; [exact Hp|]. unfold classify. now rewrite Hstage.
    + right. apply image_missing_iff in Himg as Hno.
      destruct (finishReasonOf r) as [f|] eqn:Hf.
      * destruct (String.eqb_spec f "") as [->|Hne];
          [|destruct (String.eqb_spec f "STOP") as [->|Hstop]].
        -- right. repeat split; auto.
           eexists. apply stage_fallback; auto. left. unfold finishReasonOf in Hf.
           now rewrite Hf.
        -- right. repeat split; auto.
           eexists. apply stage_fallback; auto.
        -- left. repeat split; auto. exists f. eexists. repeat split; auto.
           exact (stage_stopped r ctx f Hblock Himg Hf Hne Hstop).
      * right. repeat split; auto.
        eexists. apply stage_fallback; auto. left. unfold finishReasonOf in Hf.
        now rewrite Hf.
Qed.

(** X2: the kind of the error that [handleApiResponse] throws is decided
    by three tests: [Blocked] exactly when the block reason is a non-empty
    string; otherwise, with no inline data in the first candidate,
    [StoppedEarly] exactly when the finish reason is a non-empty string other
    than [STOP], and [EmptyResult] exactly when it is absent, empty or
    [STOP].  No other kind is thrown. *)
Theorem handleApiResponse_throws_iff (r : GenerateContentResponse) (ctx : string) :
  ((exists msg, classify r ctx = Throws Blocked msg)
   <-> exists br, blockReasonOf r = Some br /\ br <> "")
  /\ ((exists msg, classify r ctx = Throws StoppedEarly msg)
      <-> reportsNoBlock r /\ noInlineData (firstCandidateParts r)
          /\ exists f, finishReasonOf r = Some f /\ f <> "" /\ f <> "STOP")
  /\ ((exists msg, classify r ctx = Throws EmptyResult msg)
      <-> reportsNoBlock r /\ noInlineData (firstCandidateParts r)
          /\ (finishReasonOf r = None \/ finishReasonOf r = Some ""
              \/ finishReasonOf r = Some "STOP"))
  /\ (forall msg, classify r ctx <> Throws EncodingError msg)
  /\ (forall msg, classify r ctx <> Throws TransportError msg).
Proof.
  pose proof (classify_cases r ctx) as Hcases.
  split; [|split; [|split; [|split]]].
  - split.
    + intros (msg & H).
      destruct Hcases as [(br & m & Hbr & Hne & _) | [(_ & p & b & url & _ & Hc)
        | [(_ & _ & f & m & _ & _ & _ & Hc) | (_ & _ & _ & m & Hc)]]];
        try congruence. now exists br.
    + intros (br & Hbr & Hne). eexists. unfold classify. rewrite stage_blocked.
      * reflexivity.
      * rewrite Hbr. now apply truthy_nonempty.
  - split.
    + intros (msg & H).
      destruct Hcases as [(br & m & _ & _ & Hc) | [(_ & p & b & url & _ & Hc)
        | [(Hnb & Hno & f & m & Hf & Hne & Hstop & _) | (_ & _ & _ & m & Hc)]]];
        try congruence. repeat split; auto. now exists f.
    + intros (Hnb & Hno & f & Hf & Hne & Hstop). eexists.
      apply stage_stopped with (f := f); auto using reportsNoBlock_falsy.
      now apply image_missing_iff.
  - split.
    + intros (msg & H).
      destruct Hcases as [(br & m & _ & _ & Hc) | [(_ & p & b & url & _ & Hc)
        | [(_ & _ & f & m & _ & _ & _ & Hc) | (Hnb & Hno & Hf & _)]]];
        try congruence. auto.
    + intros (Hnb & Hno & Hf). eexists.
      apply stage_fallback; auto using reportsNoBlock_falsy.
      * now apply image_missing_iff.
      * unfold finishReasonOf in Hf. destruct Hf as [-> | [-> | ->]]; auto.
  - intros msg H.
    destruct Hcases as [(br & m & _ & _ & Hc) | [(_ & p & b & url & _ & Hc)
      | [(_ & _ & f & m & _ & _ & _ & Hc) | (_ & _ & _ & m & Hc)]]]; congruence.
  - intros msg H.
    destruct Hcases as [(br & m & _ & _ & Hc) | [(_ & p & b & url & _ & Hc)
      | [(_ & _ & f & m & _ & _ & _ & Hc) | (_ & _ & _ & m & Hc)]]]; congruence.
Qed.

(** X3: the context only words the messages: for two contexts,
    [handleApiResponse] returns the same data URL or throws an error of the
    same kind, and the [Blocked] message is the same. *)
Theorem handleApiResponse_context_only_words_messages
  (r : GenerateContentResponse) (ctx ctx' : string) :
  (forall url, classify r ctx = Returns url -> classify r ctx' = Returns url)
  /\ (forall kind msg, classify r ctx = Throws kind msg ->
        exists msg', classify r ctx' = Throws kind msg')
  /\ (forall msg, classify r ctx = Throws Blocked msg ->
        classify r ctx' = Throws Blocked msg).
Proof.
  unfold classify, handleApiResponse.
  destruct (JS.truthy (promptFeedback r ?> blockReason)).
  - simpl. repeat split; auto. intros kind msg [= <- <-]. eexists; reflexivity.
  - destruct (candidates r ?> JS.first ?> content ?> parts ?> find hasInlineData
                ?> inlineData) as [b|].
    + simpl. repeat split; auto; intros; discriminate.
    + destruct (JS.truthy (candidates r ?> JS.first ?> finishReason)
                && JS.differs (candidates r ?> JS.first ?> finishReason) "STOP");
        simpl; repeat split; try (intros; discriminate);
        intros kind msg [= <- <-]; eexists; reflexivity.
Qed.

(** X4: on the paths that do not read the text of the response,
    [handleApiResponse] writes exactly one entry to the console: when it
    returns, one [console.log] that names the media type and the context;
    when it throws the [Blocked] or the [StoppedEarly] error, one
    [console.error] that carries the thrown message and the response. *)
Theorem handleApiResponse_logs_once (r : GenerateContentResponse) (ctx : string) :
  (forall url, classify r ctx = Returns url ->
     exists b,
       url = "data:" ++ mimeType b ++ ";base64," ++ data b
       /\ fst (handleApiResponse r ctx)
          = [ConsoleLog ("Received image data (" ++ mimeType b ++ ") for " ++ ctx)])
  /\ (forall kind msg, classify r ctx = Throws kind msg ->
        kind = Blocked \/ kind = StoppedEarly ->
        fst (handleApiResponse r ctx) = [ConsoleError msg r]).
Proof.
  unfold classify, handleApiResponse.
  destruct (JS.truthy (promptFeedback r ?> blockReason)).
  - simpl. split; [intros url H; discriminate H|].
    intros kind msg [= <- <-] _. reflexivity.
  - destruct (candidates r ?> JS.first ?> content ?> parts ?> find hasInlineData
                ?> inlineData) as [b|].
    + simpl. split; [|intros kind msg H; discriminate H].
      intros url [= <-]. now exists b.
    + destruct (JS.truthy (candidates r ?> JS.first ?> finishReason)
                && JS.differs (candidates r ?> JS.first ?> finishReason) "STOP");
        simpl; (split; [intros url H; discriminate H|]).
      * intros kind msg [= <- <-] _. reflexivity.
      * intros kind msg [= <- <-] [H | H]; discriminate H.
Qed.

(** ** [fileToPart]: what it accepts and what it keeps *)

Lemma join_two (sep a b : string) (l : list string) :
  exists rest,
    join sep (a :: b :: l) = a ++ sep ++ b ++ rest
    /\ (rest = "" \/ exists rest', rest = sep ++ rest').
Proof.
  destruct l as [|c l].
  - exists "". simpl. rewrite append_nil_r. auto.
  - exists (sep ++ join sep (c :: l)). split; [reflexivity|]. right. now eexists.
Qed.

(** With two segments or more, the text is the first segment, the
    separator, the second segment and a rest that is empty or starts with
    the separator. *)
Lemma split_two (sep : ascii) (s a b : string) (l : list string) :
  JS.split sep s = a :: b :: l ->
  exists rest,
    s = a ++ String sep (b ++ rest)
    /\ (rest = "" \/ exists rest', rest = String sep rest')
    /\ allChars (fun c => negb (Ascii.eqb c sep)) a = true
    /\ allChars (fun c => negb (Ascii.eqb c sep)) b = true.
Proof.
  intros Hsplit.
  pose proof (join_split sep s) as Hjoin.
  pose proof (split_segments_free sep s) as Hfree.
  rewrite Hsplit in Hjoin, Hfree.
  destruct (join_two (String sep "") a b l) as (rest & Heq & Hrest).
  rewrite Heq in Hjoin. exists rest. repeat split.
  - now rewrite <- Hjoin.
  - exact Hrest.
  - now inversion Hfree.
  - inversion Hfree as [|? ? _ Hfree']. now inversion Hfree'.
Qed.

Lemma lazyToSemicolon_semicolonFree (s g : string) :
  lazyToSemicolon s = Some g -> semicolonFree g = true.
Proof.
  revert g. induction s as [|c s IH]; simpl; [discriminate|]. intros g.
  destruct (Ascii.eqb c ";") eqn:Hc.
  - now intros [= <-].
  - destruct (JS.is_line_terminator c); [discriminate|].
    destruct (lazyToSemicolon s) as [g'|]; [|discriminate].
    intros [= <-]. unfold semicolonFree in *. simpl. now rewrite Hc, (IH g' eq_refl).
Qed.

Lemma matchMimePattern_semicolonFree (s : string) (m : RegExpMatch) :
  matchMimePattern s = Some m -> semicolonFree (group1 m) = true.
Proof.
  induction s as [|c s IH]; simpl; [discriminate|].
  destruct (Ascii.eqb c ":"); [|exact IH].
  destruct (lazyToSemicolon s) as [g|] eqn:Hl; [|exact IH].
  intros [= <-]. simpl. now apply lazyToSemicolon_semicolonFree with (s := s).
Qed.

(** X5: once the read has produced an encoding, [fileToPart] throws
    [Invalid data URL] exactly when the encoding holds no comma. *)
Theorem fileToPart_invalid_iff (File : Type) (readAsDataURL : File -> Outcome string)
  (file : File) (dataUrl : string) :
  readAsDataURL file = Returns dataUrl ->
  (fileToPart File readAsDataURL file = Throws EncodingError "Invalid data URL"
   <-> commaFree dataUrl = true).
Proof.
  intros Hread. unfold fileToPart, commaFree. rewrite Hread.
  rewrite <- split_single_iff.
  pose proof (split_not_nil "," dataUrl) as Hnn.
  destruct (JS.split "," dataUrl) as [|arr0 [|arr1 arr]]; [contradiction| |].
  - simpl. split; [lia | reflexivity].
  - simpl. split; [|lia].
    destruct (matchMimePattern arr0) as [m|]; [|discriminate].
    destruct (group1 m); discriminate.
Qed.

Lemma fileToPart_invalid_iff_witness :
  fileToPart string readsAs "no delimiter here" = Throws EncodingError "Invalid data URL"
  <-> commaFree "no delimiter here" = true.
Proof.
  exact (fileToPart_invalid_iff string readsAs "no delimiter here" "no delimiter here"
           eq_refl).
Defined.

(** X6: whatever [fileToPart] returns stands in the encoding that was
    read: the media type is not empty, holds no semicolon and no line
    terminator, and stands between a colon and a semicolon before the first
    comma; the payload is the text between the first comma and the second, or
    the end. *)
Theorem fileToPart_returns_sound (File : Type) (readAsDataURL : File -> Outcome string)
  (file : File) (part : Part) :
  fileToPart File readAsDataURL file = Returns part ->
  exists dataUrl m d pre post rest,
    readAsDataURL file = Returns dataUrl
    /\ part = {| inlineData := Some {| mimeType := m; data := d |} |}
    /\ dataUrl = (pre ++ ":" ++ m ++ ";" ++ post) ++ "," ++ d ++ rest
    /\ m <> "" /\ lineFree m = true /\ semicolonFree m = true
    /\ commaFree (pre ++ ":" ++ m ++ ";" ++ post) = true
    /\ commaFree d = true
    /\ (rest = "" \/ exists rest', rest = "," ++ rest').
Proof.
  unfold fileToPart. destruct (readAsDataURL file) as [dataUrl|]; [|discriminate].
  destruct (JS.split "," dataUrl) as [|arr0 [|arr1 arr]] eqn:Hsplit; try discriminate.
  destruct (matchMimePattern arr0) as [found|] eqn:Hfound; [|discriminate].
  destruct (JS.truthy (Some (group1 found))) eqn:Htruthy; [|discriminate].
  intros [= <-].
  pose proof (matchMimePattern_semicolonFree _ _ Hfound) as Hsemi.
  destruct (matchMimePattern_sound _ _ Hfound) as (pre & g & post & -> & Harr0 & Hline).
  destruct (split_two _ _ _ _ _ Hsplit) as (rest & Hs & Hrest & Hfree0 & Hfree1).
  simpl in Hsemi, Htruthy. subst arr0.
  exists dataUrl, g, arr1, pre, post, rest. repeat split; auto.
  destruct g; [discriminate Htruthy | discriminate].
Qed.

Lemma fileToPart_returns_sound_witness :
  exists dataUrl m d pre post rest,
    readsAs "data:image/png;base64,iVBORw" = Returns dataUrl
    /\ {| inlineData := Some pngBlob |}
       = {| inlineData := Some {| mimeType := m; data := d |} |}
    /\ dataUrl = (pre ++ ":" ++ m ++ ";" ++ post) ++ "," ++ d ++ rest
    /\ m <> "" /\ lineFree m = true /\ semicolonFree m = true
    /\ commaFree (pre ++ ":" ++ m ++ ";" ++ post) = true
    /\ commaFree d = true
    /\ (rest = "" \/ exists rest', rest = "," ++ rest').
Proof.
  exact (fileToPart_returns_sound string readsAs "data:image/png;base64,iVBORw"
           {| inlineData := Some pngBlob |} eq_refl).
Defined.

Lemma split_head (sep : ascii) (a b : string) :
  allChars (fun c => negb (Ascii.eqb c sep)) a = true ->
  hd "" (JS.split sep (a ++ String sep b)) = a.
Proof. intros Ha. now rewrite (split_at_first sep a b Ha). Qed.

(** X7: on an encoding [data:<type>;<parameters>,<payload>], whatever the
    parameters are, [fileToPart] keeps the media type up to its first
    semicolon and the payload up to its first comma: parameters of the media
    type and anything after a second comma are dropped. *)
Theorem fileToPart_drops_parameters_and_tail (File : Type)
  (readAsDataURL : File -> Outcome string) (file : File)
  (type params payload : string) :
  mediaTypeOk type = true ->
  commaFree params = true ->
  readAsDataURL file = Returns ("data:" ++ type ++ ";" ++ params ++ "," ++ payload) ->
  exists d,
    fileToPart File readAsDataURL file =
      Returns {| inlineData := Some {| mimeType := type; data := d |} |}
    /\ (commaFree payload = true -> d = payload)
    /\ (forall p1 p2, payload = p1 ++ "," ++ p2 -> commaFree p1 = true -> d = p1).
Proof.
  intros Htype Hparams Hread.
  assert (Hsplit : JS.split "," ("data:" ++ type ++ ";" ++ params ++ "," ++ payload)
                   = ("data:" ++ type ++ ";" ++ params) :: JS.split "," payload).
  { replace ("data:" ++ type ++ ";" ++ params ++ "," ++ payload)
      with (("data:" ++ type ++ ";" ++ params) ++ String "," payload).
    - apply split_at_first. simpl. rewrite allChars_app. apply andb_true_intro. split.
      + unfold mediaTypeOk in Htype. apply andb_prop in Htype as [_ Htype].
        apply allChars_weaken with (2 := Htype). intros c Hc.
        apply negb_true_iff, orb_false_iff in Hc as [[Hc _]%orb_false_iff _].
        now rewrite Hc.
      + exact Hparams.
    - simpl. do 5 f_equal. rewrite append_assoc. reflexivity. }
  assert (Hmatch : matchMimePattern ("data:" ++ type ++ ";" ++ params)
                   = Some {| matched := ":" ++ type ++ ";"; group1 := type |}).
  { unfold mediaTypeOk in Htype. apply andb_prop in Htype as [_ Htype]. simpl.
    rewrite lazyToSemicolon_complete; [reflexivity|].
    apply allChars_weaken with (2 := Htype). intros c Hc.
    apply negb_true_iff, orb_false_iff in Hc as [[_ Hs]%orb_false_iff Hl].
    now rewrite Hs, Hl. }
  exists (hd "" (JS.split "," payload)). repeat split.
  - unfold fileToPart. rewrite Hread, Hsplit.
    pose proof (split_not_nil "," payload) as Hnn.
    destruct (JS.split "," payload) as [|seg segs]; [contradiction|].
    rewrite Hmatch. cbn [group1].
    now rewrite (truthy_nonempty type (mediaTypeOk_nonempty type Htype)).
  - unfold commaFree. intros Hp. now rewrite (split_free _ _ Hp).
  - intros p1 p2 -> Hp1. now apply split_head.
Qed.

Lemma fileToPart_drops_parameters_and_tail_witness :
  exists d,
    fileToPart string readsAs "data:image/svg+xml;charset=utf-8;base64,PHN2Zz4=,tail" =
      Returns {| inlineData := Some {| mimeType := "image/svg+xml"; data := d |} |}
    /\ (commaFree "PHN2Zz4=,tail" = true -> d = "PHN2Zz4=,tail")
    /\ (forall p1 p2, "PHN2Zz4=,tail" = p1 ++ "," ++ p2 -> commaFree p1 = true -> d = p1).
Proof.
  exact (fileToPart_drops_parameters_and_tail string readsAs
           "data:image/svg+xml;charset=utf-8;base64,PHN2Zz4=,tail"
           "image/svg+xml" "charset=utf-8;base64" "PHN2Zz4=,tail"
           eq_refl eq_refl eq_refl).
Defined.

(** X8: what [handleApiResponse] returns can be fed back: when the first
    inline-data part of the first candidate has a well-formed media type and
    a payload without comma, a file whose read produces the returned data URL
    is encoded by [fileToPart] into that same inline data. *)
Theorem returned_url_reads_back (File : Type) (readAsDataURL : File -> Outcome string)
  (file : File) (r : GenerateContentResponse) (ctx : string)
  (c : Candidate) (cs : list Candidate) (p : Part) (b : Blob) :
  reportsNoBlock r ->
  candidates r = Some (c :: cs) ->
  firstInlineData (partsOf c) p b ->
  mediaTypeOk (mimeType b) = true ->
  commaFree (data b) = true ->
  readAsDataURL file = classify r ctx ->
  fileToPart File readAsDataURL file = Returns {| inlineData := Some b |}.
Proof.
  intros Hnb Hc Hp Hm Hd Hread.
  rewrite (first_candidate_image r ctx c cs p b Hnb Hc Hp) in Hread.
  rewrite (fileToPart_comma_free_payload File readAsDataURL file _ _ Hm Hd Hread).
  now destruct b.
Qed.

Lemma returned_url_reads_back_witness :
  fileToPart string readsAs "data:image/png;base64,iVBORw"
  = Returns {| inlineData := Some pngBlob |}.
Proof.
  refine (returned_url_reads_back string readsAs "data:image/png;base64,iVBORw"
            scenarioB "edit" (candidateOf [plainPart; pngPart] (Some "SAFETY")) []
            pngPart pngBlob (or_introl eq_refl) eq_refl _ eq_refl eq_refl eq_refl).
  exists [plainPart], []. repeat split. repeat constructor.
Defined.

(** ** The generation operations *)

Lemma includes_here (s post : string) : JS.includes (s ++ post) s.
Proof. exists "", post. reflexivity. Qed.

Lemma includes_refl (s : string) : JS.includes s s.
Proof. exists "", "". simpl. now rewrite append_nil_r. Qed.

Lemma includes_trans (a b c : string) :
  JS.includes a b -> JS.includes b c -> JS.includes a c.
Proof.
  intros (p1 & q1 & ->) (p2 & q2 & ->). exists (p1 ++ p2), (q2 ++ q1).
  now rewrite !append_assoc.
Qed.

Lemma join_includes (sep x : string) (xs : list string) :
  In x xs -> JS.includes (join sep xs) x.
Proof.
  induction xs as [|y xs IH]; [contradiction|].
  intros [-> | Hin].
  - destruct xs; [apply includes_refl | apply includes_here].
  - destruct xs as [|z xs]; [contradiction|].
    change (join sep (y :: z :: xs)) with (y ++ sep ++ join sep (z :: xs)).
    do 2 apply includes_append_l. exact (IH Hin).
Qed.

Ltac embedded :=
  repeat first [apply includes_here | apply includes_refl | apply includes_append_l].

Section OperationFacts.

Variable File : Type.
Variable readAsDataURL : File -> Outcome string.
Variable Number : Type.
Variable numberToString : Number -> string.
Variable Client : Type.
Variable newGoogleGenAI : Outcome Client.
Variable generateContent : Client -> GenerateContentRequest -> Outcome GenerateContentResponse.

Local Abbreviation run :=
  (perform File readAsDataURL Number numberToString Client newGoogleGenAI generateContent).

Lemma requestsOf_classifier (log : list LogEntry) :
  requestsOf Number (map (FromClassifier Number) log) = [].
Proof. induction log as [|entry log IH]; simpl; auto. Qed.

Lemma classified_outcome (response : GenerateContentResponse) (ctx : string) :
  snd (classified Number response ctx) = classify response ctx
  /\ requestsOf Number (fst (classified Number response ctx)) = [].
Proof.
  unfold classified, classify. destruct (handleApiResponse response ctx) as [log outcome].
  simpl. split; [reflexivity | apply requestsOf_classifier].
Qed.

(** X9: when the client cannot be built or the image cannot be encoded,
    an operation throws that very error and sends nothing to the service. *)
Theorem operation_sends_nothing_when_preparation_fails
  (op : Operation Number) (image : File) (kind : FailureKind) (message : string) :
  newGoogleGenAI = Throws kind message
  \/ (exists ai, newGoogleGenAI = Returns ai
                 /\ fileToPart File readAsDataURL image = Throws kind message) ->
  snd (run op image) = Throws kind message
  /\ requestsOf Number (fst (run op image)) = [].
Proof.
  intros [Hnew | (ai & Hnew & Henc)];
    destruct op; unfold perform, generateEditedImage, generateFilteredImage,
      generateAdjustedImage, generateAdImage, generateMockup, bind, tell, lift;
    rewrite Hnew; try rewrite Henc; split; reflexivity.
Qed.

(** X10: when the client is built and the image is encoded, an operation
    sends exactly one request: to the model [gemini-2.5-flash-image-preview],
    holding the encoded image and then the instruction, and asking for the
    modalities image and text. *)
Theorem operation_sends_one_request
  (op : Operation Number) (image : File) (ai : Client) (part : Part) :
  newGoogleGenAI = Returns ai ->
  fileToPart File readAsDataURL image = Returns part ->
  requestsOf Number (fst (run op image))
  = [{| model := "gemini-2.5-flash-image-preview";
        contents := [ImagePart part; TextPart (instructionOf Number numberToString op)];
        responseModalities := [IMAGE; TEXT] |}].
Proof.
  intros Hnew Henc.
  destruct op; unfold perform, generateEditedImage, generateFilteredImage,
    generateAdjustedImage, generateAdImage, generateMockup, bind, tell, lift, send;
    rewrite Hnew, Henc; cbn [instructionOf];
    match goal with
    | |- context [generateContent ai ?request] =>
        destruct (generateContent ai request) as [response|]; [|reflexivity]
    end;
    match goal with
    | |- context [classified Number ?resp ?ctx] =>
        pose proof (proj2 (classified_outcome resp ctx)) as Hreq;
        destruct (classified Number resp ctx) as [log outcome]
    end;
    simpl in *; now rewrite Hreq.
Qed.

(** X11: when the client is built and the image is encoded, an operation
    resolves as the service call does: it throws what the call throws, and
    otherwise resolves to what [handleApiResponse] makes of the response under
    the operation's own context. *)
Theorem operation_outcome
  (op : Operation Number) (image : File) (ai : Client) (part : Part) :
  newGoogleGenAI = Returns ai ->
  fileToPart File readAsDataURL image = Returns part ->
  snd (run op image)
  = match generateContent ai
            {| model := "gemini-2.5-flash-image-preview";
               contents := [ImagePart part;
                            TextPart (instructionOf Number numberToString op)];
               responseModalities := [IMAGE; TEXT] |} with
    | Returns response => classify response (contextOf Number op)
    | Throws kind message => Throws kind message
    end.
Proof.
  intros Hnew Henc.
  destruct op; unfold perform, generateEditedImage, generateFilteredImage,
    generateAdjustedImage, generateAdImage, generateMockup, bind, tell, lift, send;
    rewrite Hnew, Henc; cbn [instructionOf contextOf];
    match goal with
    | |- context [generateContent ai ?request] =>
        destruct (generateContent ai request) as [response|]; [|reflexivity]
    end;
    match goal with
    | |- context [classified Number ?resp ?ctx] =>
        pose proof (proj1 (classified_outcome resp ctx)) as Hout;
        destruct (classified Number resp ctx) as [log outcome]
    end;
    simpl in *; exact Hout.
Qed.

(** X12: the instruction of an operation holds the text of the user as it
    was typed; the instruction of an ad holds every brand colour, and the
    instruction of an edit both coordinates of the hotspot. *)
Theorem instruction_embeds_inputs (op : Operation Number) :
  JS.includes (instructionOf Number numberToString op) (userTextOf Number op)
  /\ (forall adPrompt brandColors color,
        op = AdImage Number adPrompt brandColors -> In color brandColors ->
        JS.includes (instructionOf Number numberToString op) color)
  /\ (forall userPrompt hotspot,
        op = EditedImage Number userPrompt hotspot ->
        JS.includes (instructionOf Number numberToString op)
          (numberToString (Hotspot.x hotspot))
        /\ JS.includes (instructionOf Number numberToString op)
             (numberToString (Hotspot.y hotspot))).
Proof.
  split; [|split].
  - destruct op; unfold instructionOf, userTextOf, promptOfEdit, promptOfFilter,
      promptOfAdjustment, promptOfAd, promptOfMockup; embedded.
  - intros adPrompt brandColors color -> Hin.
    apply includes_trans with (b := join ", " brandColors);
      [|now apply join_includes].
    unfold instructionOf, promptOfAd. embedded.
  - intros userPrompt hotspot ->. unfold instructionOf, promptOfEdit. split.
    + embedded.
    + embedded.
Qed.

End OperationFacts.

Lemma operation_sends_nothing_when_preparation_fails_witness :
  snd (perform string readsAs nat lengthToString unit readyClient (answersWith scenarioB)
         (Mockup nat "On a black t-shirt") "not a data URL")
  = Throws EncodingError "Invalid data URL"
  /\ requestsOf nat
       (fst (perform string readsAs nat lengthToString unit readyClient
               (answersWith scenarioB)
               (Mockup nat "On a black t-shirt") "not a data URL"))
     = [].
Proof.
  apply (operation_sends_nothing_when_preparation_fails string readsAs nat
           lengthToString unit readyClient (answersWith scenarioB)).
  right. exists tt. split; reflexivity.
Defined.

Lemma operation_sends_one_request_witness :
  requestsOf nat
    (fst (perform string readsAs nat lengthToString unit readyClient
            (answersWith scenarioB)
            (FilteredImage nat "sepia") "data:image/png;base64,iVBORw"))
  = [{| model := "gemini-2.5-flash-image-preview";
        contents := [ImagePart {| inlineData := Some pngBlob |};
                     TextPart (promptOfFilter "sepia")];
        responseModalities := [IMAGE; TEXT] |}].
Proof.
  exact (operation_sends_one_request string readsAs nat lengthToString unit readyClient
           (answersWith scenarioB) (FilteredImage nat "sepia")
           "data:image/png;base64,iVBORw" tt {| inlineData := Some pngBlob |}
           eq_refl eq_refl).
Defined.

Lemma operation_outcome_witness :
  snd (perform string readsAs nat lengthToString unit readyClient (answersWith scenarioC)
         (AdImage nat "Grand opening" ["#FFF"]) "data:image/png;base64,iVBORw")
  = classify scenarioC "ad".
Proof.
  exact (operation_outcome string readsAs nat lengthToString unit readyClient
           (answersWith scenarioC) (AdImage nat "Grand opening" ["#FFF"])
           "data:image/png;base64,iVBORw" tt {| inlineData := Some pngBlob |}
           eq_refl eq_refl).
Defined.

(** ** [generateLogos]: what it returns and what it asks for *)

Lemma prefix_append (a b : string) : String.prefix a (a ++ b) = true.
Proof.
  induction a as [|c a IH]; simpl; [now destruct b|].
  destruct (ascii_dec c c); [exact IH | congruence].
Qed.

Lemma png_urls (imgs : list GeneratedImage) :
  Forall (fun url => String.prefix "data:image/png;base64," url = true)
    (map (fun img => "data:image/png;base64," ++ imageBytes (image img)) imgs).
Proof.
  induction imgs as [|img imgs IH]; [constructor|].
  constructor; [apply prefix_append | exact IH].
Qed.

(** X13: whenever [generateLogos] returns, the service has answered with a
    non-empty array of images, and the result holds as many data URLs, each
    starting with [data:image/png;base64,]: the result is never empty. *)
Theorem generateLogos_returns_sound (LogoData : Type)
  (generateImages : LogoData -> Outcome GenerateImagesResponse)
  (logoData : LogoData) (urls : list string) :
  generateLogos LogoData generateImages logoData = Returns urls ->
  urls <> []
  /\ Forall (fun url => String.prefix "data:image/png;base64," url = true) urls
  /\ exists response imgs,
       generateImages logoData = Returns response
       /\ generatedImages response = Some imgs
       /\ length urls = length imgs.
Proof.
  unfold generateLogos.
  destruct (generateImages logoData) as [response|]; [|discriminate].
  destruct (generatedImages response) as [[|img imgs]|] eqn:Himgs; try discriminate.
  intros H. apply (f_equal (fun o => match o with Returns v => v | Throws _ _ => [] end))
    in H. subst urls. repeat split.
  - discriminate.
  - exact (png_urls (img :: imgs)).
  - exists response, (img :: imgs). repeat split; auto.
    exact (length_map _ (img :: imgs)).
Qed.

Lemma generateLogos_returns_sound_witness :
  ["data:image/png;base64,AAAA"; "data:image/png;base64,BBBB"] <> []
  /\ Forall (fun url => String.prefix "data:image/png;base64," url = true)
       ["data:image/png;base64,AAAA"; "data:image/png;base64,BBBB"]
  /\ exists response imgs,
       answers twoLogos tt = Returns response
       /\ generatedImages response = Some imgs
       /\ length ["data:image/png;base64,AAAA"; "data:image/png;base64,BBBB"]
          = length imgs.
Proof.
  exact (generateLogos_returns_sound unit (answers twoLogos) tt
           ["data:image/png;base64,AAAA"; "data:image/png;base64,BBBB"] eq_refl).
Defined.

Lemma includes_two (a b post : string) : JS.includes (a ++ b ++ post) (a ++ b).
Proof. exists "", post. simpl. now rewrite append_assoc. Qed.

(** What the prompt of [generateLogos] holds of the data of the wizard. *)
Lemma promptOfLogos_embeds_inputs (logoData : LogoData.t) :
  JS.includes (promptOfLogos logoData) (LogoData.name logoData)
  /\ JS.includes (promptOfLogos logoData) (LogoData.industry logoData)
  /\ JS.includes (promptOfLogos logoData) (LogoData.colors logoData)
  /\ JS.includes (promptOfLogos logoData) (LogoData.iconography logoData)
  /\ (forall style, In style (LogoData.styles logoData) ->
        JS.includes (promptOfLogos logoData) style)
  /\ JS.includes (promptOfLogos logoData)
       ("- **Slogan (optional):** "
          ++ (if String.eqb (LogoData.slogan logoData) "" then "None"
              else LogoData.slogan logoData)).
Proof.
  unfold promptOfLogos. repeat split; try (now embedded).
  - intros style Hin.
    apply includes_trans with (b := join ", " (LogoData.styles logoData));
      [now embedded | now apply join_includes].
  - replace (JS.or_else (Some (LogoData.slogan logoData)) "None")
      with (if String.eqb (LogoData.slogan logoData) "" then "None"
            else LogoData.slogan logoData)
      by (destruct (LogoData.slogan logoData); reflexivity).
    change ("        - **Slogan (optional):** ")
      with ("        " ++ "- **Slogan (optional):** ").
    rewrite (append_assoc "        " "- **Slogan (optional):** ").
    repeat first [apply includes_two | apply includes_append_l].
Qed.

(** X14: when the client is built, [generateLogos] sends exactly one
    request: it asks the model [imagen-4.0-generate-001] for four PNG images
    of aspect ratio [1:1], with a prompt that holds the brand name, the
    industry, the colour preferences, the iconography and every chosen style
    as they were entered, and a slogan line that reads [None] for an empty
    slogan and holds the slogan otherwise.  The operation throws what the
    call of this request throws, and otherwise resolves from its response:
    to the fixed error without images, to one PNG data URL for each image. *)
Theorem generateLogos_sends_one_request (Client : Type) (newGoogleGenAI : Outcome Client)
  (generateImages : Client -> GenerateImagesRequest -> Outcome GenerateImagesResponse)
  (logoData : LogoData.t) (ai : Client) :
  newGoogleGenAI = Returns ai ->
  let prompt := promptOfLogos logoData in
  let request := {| imagesModel := "imagen-4.0-generate-001";
                    imagesPrompt := prompt;
                    numberOfImages := 4;
                    outputMimeType := "image/png";
                    aspectRatio := "1:1" |} in
  imagesRequestsOf (fst (generateLogosRun Client newGoogleGenAI generateImages logoData))
  = [request]
  /\ JS.includes prompt (LogoData.name logoData)
  /\ JS.includes prompt (LogoData.industry logoData)
  /\ JS.includes prompt (LogoData.colors logoData)
  /\ JS.includes prompt (LogoData.iconography logoData)
  /\ (forall style, In style (LogoData.styles logoData) -> JS.includes prompt style)
  /\ JS.includes prompt
       ("- **Slogan (optional):** "
          ++ (if String.eqb (LogoData.slogan logoData) "" then "None"
              else LogoData.slogan logoData))
  /\ snd (generateLogosRun Client newGoogleGenAI generateImages logoData)
     = match generateImages ai request with
       | Throws kind message => Throws kind message
       | Returns response =>
           match generatedImages response with
           | None | Some [] => Throws EmptyResult noImagesMessage
           | Some imgs =>
               Returns (map (fun img => "data:image/png;base64,"
                                          ++ imageBytes (image img)) imgs)
           end
       end.
Proof.
  intros Hnew. cbn zeta.
  destruct (promptOfLogos_embeds_inputs logoData)
    as (Hname & Hindustry & Hcolors & Hicon & Hstyles & Hslogan).
  unfold generateLogosRun, generateLogos, logoRequest. rewrite Hnew. cbn [fst snd].
  repeat split; auto.
  destruct (generateImages ai _) as [response|]; [|reflexivity].
  destruct (generatedImages response) as [[|img imgs]|]; reflexivity.
Qed.

Lemma generateLogos_sends_one_request_witness :
  let prompt := promptOfLogos sampleLogoData in
  imagesRequestsOf
    (fst (generateLogosRun unit readyClient (answersImages twoLogos) sampleLogoData))
  = [{| imagesModel := "imagen-4.0-generate-001";
        imagesPrompt := prompt;
        numberOfImages := 4;
        outputMimeType := "image/png";
        aspectRatio := "1:1" |}]
  /\ JS.includes prompt "SparkleClean"
  /\ JS.includes prompt "Cleaning Service"
  /\ JS.includes prompt "shades of blue and silver"
  /\ JS.includes prompt "Abstract Shape"
  /\ (forall style, In style ["Modern"; "Bold"] -> JS.includes prompt style)
  /\ JS.includes prompt "- **Slogan (optional):** None"
  /\ snd (generateLogosRun unit readyClient (answersImages twoLogos) sampleLogoData)
     = Returns ["data:image/png;base64,AAAA"; "data:image/png;base64,BBBB"].
Proof.
  exact (generateLogos_sends_one_request unit readyClient (answersImages twoLogos)
           sampleLogoData tt eq_refl).
Defined.

(** ** The component [GenerateAdPanel] *)

Ltac by_bits c := destruct c as [[] [] [] [] [] [] [] []]; try reflexivity; try discriminate.

Lemma upperChar_hex (c : ascii) :
  GenerateAdPanel.isHexDigit c = true ->
  GenerateAdPanel.isUpperHexDigit (GenerateAdPanel.upperChar c) = true.
Proof. by_bits c. Qed.



Lemma upperChar_idempotent (c : ascii) :
  GenerateAdPanel.upperChar (GenerateAdPanel.upperChar c) = GenerateAdPanel.upperChar c.
Proof. by_bits c. Qed.

Lemma toUpperCase_idempotent (s : string) :
  GenerateAdPanel.toUpperCase (GenerateAdPanel.toUpperCase s)
  = GenerateAdPanel.toUpperCase s.
Proof.
  induction s as [|c s IH]; simpl; [reflexivity|].
  now rewrite upperChar_idempotent, IH.
Qed.

Lemma toUpperCase_length (s : string) :
  String.length (GenerateAdPanel.toUpperCase s) = String.length s.
Proof. induction s as [|c s IH]; simpl; auto. Qed.

Lemma toUpperCase_hex (s : string) :
  allChars GenerateAdPanel.isHexDigit s = true ->
  allChars GenerateAdPanel.isUpperHexDigit (GenerateAdPanel.toUpperCase s) = true.
Proof.
  induction s as [|c s IH]; simpl; [reflexivity|].
  intros [Hc Hs]%andb_prop. now rewrite (upperChar_hex c Hc), (IH Hs).
Qed.

Lemma hex3_iff (s rest : string) :
  GenerateAdPanel.hex3 s = Some rest
  <-> exists a b c,
        s = String a (String b (String c rest))
        /\ allChars GenerateAdPanel.isHexDigit (String a (String b (String c ""))) = true.
Proof.
  unfold GenerateAdPanel.hex3. split.
  - destruct s as [|a [|b [|c s]]]; try discriminate.
    destruct (GenerateAdPanel.isHexDigit a && GenerateAdPanel.isHexDigit b
              && GenerateAdPanel.isHexDigit c) eqn:H; [|discriminate].
    intros [= <-]. exists a, b, c. split; [reflexivity|]. simpl.
    apply andb_prop in H as [[-> ->]%andb_prop ->]. reflexivity.
  - intros (a & b & c & -> & H). simpl in H.
    apply andb_prop in H as [-> [-> [-> _]%andb_prop]%andb_prop]. reflexivity.
Qed.

Lemma hexColorTest_spec (s : string) :
  GenerateAdPanel.hexColorTest s = true
  <-> exists digits,
        s = String "#" digits
        /\ allChars GenerateAdPanel.isHexDigit digits = true
        /\ (String.length digits = 3 \/ String.length digits = 6).
Proof.
  unfold GenerateAdPanel.hexColorTest. split.
  - destruct s as [|h rest]; [discriminate|].
    intros [Hh H]%andb_prop. apply Ascii.eqb_eq in Hh as ->.
    exists rest. split; [reflexivity|].
    destruct (GenerateAdPanel.hex3 rest) as [rest'|] eqn:H1; [|discriminate].
    apply hex3_iff in H1 as (a & b & c & -> & Habc).
    destruct rest' as [|x rest''].
    + split; [exact Habc | now left].
    + destruct (GenerateAdPanel.hex3 (String x rest'')) as [[|y z]|] eqn:H2;
        try discriminate.
      apply hex3_iff in H2 as (d & e & f & Heq & Hdef). rewrite Heq.
      split; [|now right]. simpl in *.
      apply andb_prop in Habc as [-> [-> [-> _]%andb_prop]%andb_prop].
      exact Hdef.
  - intros (digits & -> & Hhex & Hlen). rewrite Ascii.eqb_refl. simpl.
    destruct Hlen as [Hlen | Hlen].
    + destruct digits as [|a [|b [|c [|d rest]]]]; try discriminate.
      rewrite (proj2 (hex3_iff _ "")); [reflexivity|]. now exists a, b, c.
    + destruct digits as [|a [|b [|c [|d [|e [|f [|g rest]]]]]]]; try discriminate.
      simpl in Hhex.
      apply andb_prop in Hhex as [Ha [Hb [Hc Hdef]%andb_prop]%andb_prop].
      rewrite (proj2 (hex3_iff _ (String d (String e (String f ""))))).
      * rewrite (proj2 (hex3_iff _ "")); [reflexivity|]. now exists d, e, f.
      * exists a, b, c. split; [reflexivity|]. simpl. now rewrite Ha, Hb, Hc.
Qed.


Lemma hexColorTest_stored (s : string) :
  GenerateAdPanel.hexColorTest s = true ->
  GenerateAdPanel.storedColor (GenerateAdPanel.toUpperCase s).
Proof.
  intros (digits & -> & Hhex & Hlen)%hexColorTest_spec.
  exists (GenerateAdPanel.toUpperCase digits). repeat split.
  - now apply toUpperCase_hex.
  - now rewrite toUpperCase_length.
Qed.

Lemma arrayIncludes_In (xs : list string) (v : string) :
  arrayIncludes xs v = true <-> In v xs.
Proof.
  unfold arrayIncludes. rewrite existsb_exists. split.
  - intros (x & Hin & ->%String.eqb_eq). exact Hin.
  - intros Hin. exists v. split; [exact Hin | apply String.eqb_refl].
Qed.

Lemma arrayIncludes_not_In (xs : list string) (v : string) :
  arrayIncludes xs v = false <-> ~ In v xs.
Proof.
  rewrite <- arrayIncludes_In. destruct (arrayIncludes xs v); split; congruence.
Qed.

Lemma without_In (v x : string) (xs : list string) :
  In x (without v xs) <-> In x xs /\ x <> v.
Proof.
  unfold without. rewrite filter_In, negb_true_iff, String.eqb_neq. reflexivity.
Qed.

Lemma without_absent (v : string) (xs : list string) :
  ~ In v xs -> without v xs = xs.
Proof.
  induction xs as [|x xs IH]; simpl; [reflexivity|]. intros Hnot.
  destruct (String.eqb_spec x v) as [->|Hne]; simpl.
  - exfalso. apply Hnot. now left.
  - f_equal. apply IH. intros Hin. apply Hnot. now right.
Qed.

Lemma without_appended (v : string) (xs : list string) :
  ~ In v xs -> without v (xs ++ [v])%list = xs.
Proof.
  intros Hnot. unfold without. rewrite filter_app. simpl.
  rewrite String.eqb_refl. simpl. rewrite app_nil_r. now apply without_absent.
Qed.

Lemma wellKept_without (v : string) (xs : list string) :
  GenerateAdPanel.wellKept xs -> GenerateAdPanel.wellKept (without v xs).
Proof.
  intros [Hall Hnd]. split.
  - apply Forall_forall. intros x [Hin _]%without_In.
    now apply (proj1 (Forall_forall _ _) Hall).
  - now apply NoDup_filter.
Qed.

Lemma wellKept_appended (v : string) (xs : list string) :
  GenerateAdPanel.wellKept xs -> GenerateAdPanel.storedColor v -> ~ In v xs ->
  GenerateAdPanel.wellKept (xs ++ [v])%list.
Proof.
  intros [Hall Hnd] Hv Hnot. split.
  - apply Forall_app. split; [exact Hall | now constructor].
  - apply NoDup_app; auto.
    + constructor; [intros [] | constructor].
    + intros x Hx [<- | []]. contradiction.
Qed.

(** X15: the panel accepts exactly the texts made of [#] and three or six
    hexadecimal digits, in either letter case; the upper-case form of an
    accepted text, which is what the panel stores, is [#] and as many digits
    among [0-9A-F]. *)
Theorem hexColorTest_iff (s : string) :
  (GenerateAdPanel.hexColorTest s = true
   <-> exists digits,
         s = String "#" digits
         /\ allChars GenerateAdPanel.isHexDigit digits = true
         /\ (String.length digits = 3 \/ String.length digits = 6))
  /\ (GenerateAdPanel.hexColorTest s = true ->
      GenerateAdPanel.storedColor (GenerateAdPanel.toUpperCase s)
      /\ String.length (GenerateAdPanel.toUpperCase s) = String.length s).
Proof.
  split; [apply hexColorTest_spec|].
  intros Htest. split; [now apply hexColorTest_stored | apply toUpperCase_length].
Qed.

(** X16: the list of brand colours stays well kept: when every colour in
    it is [#] and three or six digits among [0-9A-F] and no colour occurs
    twice, the same holds after [handleAddColor] and after
    [handleRemoveColor]. *)
Theorem brandColors_stay_well_kept (s : GenerateAdPanel.State) :
  GenerateAdPanel.wellKept (GenerateAdPanel.brandColors s) ->
  GenerateAdPanel.wellKept
    (GenerateAdPanel.brandColors (GenerateAdPanel.handleAddColor s))
  /\ forall color,
       GenerateAdPanel.wellKept
         (GenerateAdPanel.brandColors (GenerateAdPanel.handleRemoveColor color s)).
Proof.
  intros Hkept. split.
  - unfold GenerateAdPanel.handleAddColor.
    destruct (GenerateAdPanel.hexColorTest (GenerateAdPanel.newColor s)) eqn:Htest;
      [|exact Hkept].
    destruct (arrayIncludes (GenerateAdPanel.brandColors s)
                (GenerateAdPanel.toUpperCase (GenerateAdPanel.newColor s))) eqn:Hin;
      [exact Hkept|].
    simpl. apply wellKept_appended; auto.
    + now apply hexColorTest_stored.
    + now apply arrayIncludes_not_In.
  - intros color. simpl. now apply wellKept_without.
Qed.

Lemma brandColors_stay_well_kept_witness :
  GenerateAdPanel.wellKept ["#FFF"; "#00AAFF"; "#ABC"]
  /\ forall color, GenerateAdPanel.wellKept (without color ["#FFF"; "#00AAFF"]).
Proof.
  apply (brandColors_stay_well_kept
           {| GenerateAdPanel.newColor := "#abc";
              GenerateAdPanel.brandColors := ["#FFF"; "#00AAFF"] |}).
  split.
  - repeat constructor.
    + exists "FFF". repeat split. now left.
    + exists "00AAFF". repeat split. now right.
  - repeat constructor; simpl; intuition discriminate.
Defined.



(** X18: removing the colour that [handleAddColor] has just stored gives
    the list of before: for an accepted text whose upper-case form was not in
    the list, [handleRemoveColor] after [handleAddColor] restores the brand
    colours. *)
Theorem handleRemoveColor_undoes_handleAddColor (s : GenerateAdPanel.State) :
  GenerateAdPanel.hexColorTest (GenerateAdPanel.newColor s) = true ->
  ~ In (GenerateAdPanel.toUpperCase (GenerateAdPanel.newColor s))
       (GenerateAdPanel.brandColors s) ->
  GenerateAdPanel.brandColors
    (GenerateAdPanel.handleRemoveColor
       (GenerateAdPanel.toUpperCase (GenerateAdPanel.newColor s))
       (GenerateAdPanel.handleAddColor s))
  = GenerateAdPanel.brandColors s.
Proof.
  intros Htest Hnot. unfold GenerateAdPanel.handleAddColor.
  rewrite Htest, (proj2 (arrayIncludes_not_In _ _) Hnot). simpl.
  now apply without_appended.
Qed.

Lemma handleRemoveColor_undoes_handleAddColor_witness :
  GenerateAdPanel.brandColors
    (GenerateAdPanel.handleRemoveColor "#ABC"
       (GenerateAdPanel.handleAddColor
          {| GenerateAdPanel.newColor := "#abc";
             GenerateAdPanel.brandColors := ["#FFF"] |}))
  = ["#FFF"].
Proof.
  apply (handleRemoveColor_undoes_handleAddColor
           {| GenerateAdPanel.newColor := "#abc";
              GenerateAdPanel.brandColors := ["#FFF"] |} eq_refl).
  simpl. intuition discriminate.
Defined.

Lemma trim_truthy (s : string) :
  JS.truthy (Some (JS.trim s)) = true -> JS.truthy (Some s) = true.
Proof. destruct s; [discriminate | reflexivity]. Qed.

(** X19: whenever the submit button of the panel is enabled, submitting
    calls [onGenerateAd]: the guard of [handleGenerate] never stops a
    submission that the button allows. *)
Theorem enabled_submit_generates (File : Type) (isLoading : bool) (adPrompt : string)
  (logoForAd : option File) :
  GenerateAdPanel.submitDisabled isLoading adPrompt logoForAd = false ->
  GenerateAdPanel.handleGenerate adPrompt logoForAd = true.
Proof.
  unfold GenerateAdPanel.submitDisabled, GenerateAdPanel.handleGenerate.
  intros [[_ Hprompt]%orb_false_iff Hlogo]%orb_false_iff.
  apply negb_false_iff, trim_truthy in Hprompt. rewrite Hprompt.
  now destruct logoForAd.
Qed.

Lemma enabled_submit_generates_witness :
  GenerateAdPanel.handleGenerate "Grand opening" (Some "logo.png") = true.
Proof.
  exact (enabled_submit_generates string false "Grand opening" (Some "logo.png") eq_refl).
Defined.

(** ** The page [MockupGenerator] *)

Section MockupFacts.

Variable File : Type.

Lemma mockupInvariant_step (s s' : MockupGenerator.State File) :
  MockupGenerator.Step File s s' -> mockupInvariant File s -> mockupInvariant File s'.
Proof.
  intros Hstep [Hload Herr].
  destruct Hstep as [files s | s | value s Hen | s s' Hen Hgen | settled s Hl | s Hshown].
  - unfold MockupGenerator.handleFileSelect.
    destruct (files ?> JS.first); [|now split].
    split; simpl; auto.
  - split; simpl; auto.
  - split; simpl; auto.
  - unfold MockupGenerator.handleGenerate in Hgen.
    destruct (MockupGenerator.assetFile File s); [|discriminate].
    destruct (JS.truthy (Some (MockupGenerator.mockupPrompt File s))); [|discriminate].
    injection Hgen as <-. split; simpl; auto.
  - destruct (Hload Hl) as [He Hm].
    destruct settled; split; simpl; auto; try discriminate.
    intros H. now rewrite He in H.
  - split; simpl; [|congruence].
    intros Hl. destruct (Hload Hl) as [_ Hm]. auto.
Qed.

Lemma mockupInvariant_reachable (s : MockupGenerator.State File) :
  MockupGenerator.Reachable File s -> mockupInvariant File s.
Proof.
  induction 1 as [|s s' _ IH Hstep].
  - split; simpl; [discriminate | congruence].
  - exact (mockupInvariant_step s s' Hstep IH).
Qed.

(** X20: in every state that the mockup page can reach, its output pane
    shows exactly one of four things: the spinner, the error, the mockup or
    the placeholder. *)
Theorem mockup_pane_shows_one_thing (s : MockupGenerator.State File) :
  MockupGenerator.Reachable File s -> MockupGenerator.paneCount File s = 1.
Proof.
  intros [Hload _]%mockupInvariant_reachable.
  unfold MockupGenerator.paneCount, MockupGenerator.showsSpinner,
    MockupGenerator.showsError, MockupGenerator.showsMockup,
    MockupGenerator.showsPlaceholder.
  destruct (MockupGenerator.isLoading File s).
  - destruct (Hload eq_refl) as [-> ->]. reflexivity.
  - destruct (JS.truthy (MockupGenerator.error File s));
      destruct (JS.truthy (MockupGenerator.generatedMockup File s)); reflexivity.
Qed.

(** X21: the mockup page never holds an error together with a mockup, and
    holds neither while a generation is running: a failure is never shown over
    a stale result. *)
Theorem mockup_error_excludes_result (s : MockupGenerator.State File) :
  MockupGenerator.Reachable File s ->
  (MockupGenerator.error File s <> None ->
   MockupGenerator.generatedMockup File s = None)
  /\ (MockupGenerator.isLoading File s = true ->
      MockupGenerator.error File s = None
      /\ MockupGenerator.generatedMockup File s = None).
Proof.
  intros [Hload Herr]%mockupInvariant_reachable. split; assumption.
Qed.

(** X22: whenever the button [Generate Mockup] is enabled, a click starts
    a generation: [handleGenerate] does not return early, and the page is
    loading with its error and its former mockup cleared. *)
Theorem mockup_enabled_generate_starts (s : MockupGenerator.State File) :
  MockupGenerator.generateDisabled File s = false ->
  exists s',
    MockupGenerator.handleGenerate File s = Some s'
    /\ MockupGenerator.isLoading File s' = true
    /\ MockupGenerator.error File s' = None
    /\ MockupGenerator.generatedMockup File s' = None
    /\ MockupGenerator.assetFile File s' = MockupGenerator.assetFile File s
    /\ MockupGenerator.mockupPrompt File s' = MockupGenerator.mockupPrompt File s.
Proof.
  unfold MockupGenerator.generateDisabled, MockupGenerator.handleGenerate.
  intros [[_ Hfile]%orb_false_iff Hprompt]%orb_false_iff.
  apply negb_false_iff, trim_truthy in Hprompt.
  destruct (MockupGenerator.assetFile File s) as [file|] eqn:Hasset; [|discriminate].
  rewrite Hprompt. eexists. repeat split; simpl; auto.
Qed.

End MockupFacts.

Lemma mockupAfterFailure_reachable :
  MockupGenerator.Reachable string mockupAfterFailure.
Proof.
  unfold mockupAfterFailure.
  eapply MockupGenerator.ReachStep;
    [|apply MockupGenerator.Settle; reflexivity].
  eapply MockupGenerator.ReachStep;
    [|apply (MockupGenerator.ClickGenerate string
               {| MockupGenerator.assetFile := Some "logo.png";
                  MockupGenerator.mockupPrompt := "On a black t-shirt";
                  MockupGenerator.generatedMockup := None;
                  MockupGenerator.isLoading := false;
                  MockupGenerator.error := None |}); reflexivity].
  eapply MockupGenerator.ReachStep;
    [|apply (MockupGenerator.TypePrompt string "On a black t-shirt"
               {| MockupGenerator.assetFile := Some "logo.png";
                  MockupGenerator.mockupPrompt := "";
                  MockupGenerator.generatedMockup := None;
                  MockupGenerator.isLoading := false;
                  MockupGenerator.error := None |}); reflexivity].
  eapply MockupGenerator.ReachStep;
    [apply MockupGenerator.ReachInitial
    |apply (MockupGenerator.SelectFile string (Some ["logo.png"])
              (MockupGenerator.initial string))].
Defined.

Lemma mockup_pane_shows_one_thing_witness :
  MockupGenerator.paneCount string mockupAfterFailure = 1.
Proof.
  exact (mockup_pane_shows_one_thing string mockupAfterFailure
           mockupAfterFailure_reachable).
Defined.

Lemma mockup_error_excludes_result_witness :
  (MockupGenerator.error string mockupAfterFailure <> None ->
   MockupGenerator.generatedMockup string mockupAfterFailure = None)
  /\ (MockupGenerator.isLoading string mockupAfterFailure = true ->
      MockupGenerator.error string mockupAfterFailure = None
      /\ MockupGenerator.generatedMockup string mockupAfterFailure = None).
Proof.
  exact (mockup_error_excludes_result string mockupAfterFailure
           mockupAfterFailure_reachable).
Defined.

Lemma mockup_enabled_generate_starts_witness :
  exists s',
    MockupGenerator.handleGenerate string
      {| MockupGenerator.assetFile := Some "logo.png";
         MockupGenerator.mockupPrompt := "On a black t-shirt";
         MockupGenerator.generatedMockup := Some "data:image/png;base64,iVBORw";
         MockupGenerator.isLoading := false;
         MockupGenerator.error := None |} = Some s'
    /\ MockupGenerator.isLoading string s' = true
    /\ MockupGenerator.error string s' = None
    /\ MockupGenerator.generatedMockup string s' = None
    /\ MockupGenerator.assetFile string s' = Some "logo.png"
    /\ MockupGenerator.mockupPrompt string s' = "On a black t-shirt".
Proof.
  exact (mockup_enabled_generate_starts string
           {| MockupGenerator.assetFile := Some "logo.png";
              MockupGenerator.mockupPrompt := "On a black t-shirt";
              MockupGenerator.generatedMockup := Some "data:image/png;base64,iVBORw";
              MockupGenerator.isLoading := false;
              MockupGenerator.error := None |} eq_refl).
Defined.

(** ** The page [LogoGenerator] *)

Lemma toggle_kept (style : string) (styles : list string) :
  stylesKept styles ->
  In style LogoGenerator.styleOptions ->
  negb (arrayIncludes styles style) && (3 <=? length styles)%nat = false ->
  stylesKept (LogoGenerator.toggle style styles).
Proof.
  intros (Hlen & Hnd & Hincl) Hopt Hen. unfold LogoGenerator.toggle.
  destruct (arrayIncludes styles style) eqn:Hin.
  - repeat split.
    + unfold without. pose proof (filter_length_le
        (fun x => negb (String.eqb x style)) styles). lia.
    + now apply NoDup_filter.
    + intros x [Hx _]%without_In. now apply Hincl.
  - cbn [negb andb] in Hen. apply Nat.leb_gt in Hen. repeat split.
    + rewrite length_app. simpl. lia.
    + apply NoDup_app; auto.
      * constructor; [intros [] | constructor].
      * intros x Hx [<- | []]. now apply arrayIncludes_not_In in Hin.
    + intros x [Hx | [<- | []]]%in_app_or; auto.
Qed.

Lemma generateLogos_png_urls (LogoData : Type)
  (generateImages : LogoData -> Outcome GenerateImagesResponse)
  (logoData : LogoData) (urls : list string) :
  generateLogos LogoData generateImages logoData = Returns urls ->
  urls <> [] /\ Forall pngUrl urls.
Proof.
  unfold generateLogos.
  destruct (generateImages logoData) as [response|]; [|discriminate].
  destruct (generatedImages response) as [[|img imgs]|]; try discriminate.
  intros H. apply (f_equal (fun o => match o with Returns v => v | Throws _ _ => [] end))
    in H. subst urls. split; [discriminate | exact (png_urls (img :: imgs))].
Qed.

Section LogoFacts.

Variable generateImages : LogoData.t -> Outcome GenerateImagesResponse.

Lemma logoInvariant_start : logoInvariant LogoGenerator.start.
Proof.
  unfold logoInvariant. cbn.
  split; [lia|]. split; [intros; lia|].
  split; [unfold stylesKept; simpl; split; [lia | split; [constructor | intros x []]]|].
  split; [now left|]. split; [discriminate | reflexivity].
Qed.

Ltac wizard_view Hview :=
  unfold LogoGenerator.view in Hview;
  match type of Hview with
  | context [LogoGenerator.isLoading ?s] =>
      destruct (LogoGenerator.isLoading s) eqn:Hloading; [discriminate Hview|];
      destruct (JS.truthy (LogoGenerator.error s)) eqn:Herror; [discriminate Hview|];
      destruct (LogoGenerator.step s >? 5)%Z eqn:Hstep5; [discriminate Hview|];
      rewrite Z.gtb_ltb in Hstep5; apply Z.ltb_ge in Hstep5
  end.

Ltac settled :=
  repeat split; auto; try lia; try discriminate;
  try (intros; lia); try (intros; exfalso; lia);
  try (intros ?; match goal with H : _ -> ?P |- ?P => apply H; lia end).

Lemma logoInvariant_step (m m' : LogoGenerator.Machine) :
  LogoGenerator.Step generateImages m m' -> logoInvariant m -> logoInvariant m'.
Proof.
  intros Hstep. unfold logoInvariant, stylesKept.
  destruct Hstep as [v s Hview Hs | v s Hview Hs | v s Hview Hs
                    | style s Hview Hs Hopt Hen | v s Hview Hs
                    | icon s Hview Hs Hopt | s Hview Hen | s Hview Hlt Hen
                    | s Hview Hs Hen | step0 d settled s Hsettle
                    | s Hview | s Hview];
    cbn [LogoGenerator.ui LogoGenerator.pending LogoGenerator.idle];
    intros (Hrange & Hname & (Hlen & Hnd & Hincl) & Hicon & Hlogos & Hpending).
  - cbn. settled.
  - cbn. settled.
  - cbn. settled.
  - destruct (toggle_kept style _ (conj Hlen (conj Hnd Hincl)) Hopt Hen)
      as (Hlen' & Hnd' & Hincl').
    cbn. settled.
  - cbn. settled.
  - cbn. settled.
  - wizard_view Hview. unfold LogoGenerator.backDisabled in Hen.
    apply Z.eqb_neq in Hen. cbn. settled.
  - wizard_view Hview. unfold LogoGenerator.nextDisabled in Hen.
    apply negb_false_iff in Hen. cbn. settled.
    intros _ Hempty. now rewrite Hempty in Hen.
  - unfold LogoGenerator.generateDisabled in Hen. apply negb_false_iff in Hen.
    cbn. settled.
    intros Hempty. now rewrite Hempty in Hen.
  - destruct Hpending as (Hl & He & -> & Hs & -> & Hi).
    destruct settled as [logos | message |]; cbn in *.
    + destruct (generateLogos_png_urls _ _ _ _ Hsettle) as [Hne Hpng]. settled.
    + settled.
    + settled.
  - cbn. destruct (LogoGenerator.step s - 1 >? 0)%Z eqn:Hgt.
    + rewrite Z.gtb_ltb in Hgt. apply Z.ltb_lt in Hgt. settled.
    + settled.
  - cbn. settled.
    + constructor.
    + intros x [].
Qed.

Lemma logoInvariant_reachable (m : LogoGenerator.Machine) :
  LogoGenerator.Reachable generateImages m -> logoInvariant m.
Proof.
  induction 1 as [|m m' _ IH Hstep].
  - exact logoInvariant_start.
  - exact (logoInvariant_step m m' Hstep IH).
Qed.

(** X23: in every state that the logo page can reach, the step of the
    wizard lies between 1 and 6, and the results view is shown only with at
    least one logo, each a data URL of a PNG image. *)
Theorem logo_results_view_has_logos (m : LogoGenerator.Machine) :
  LogoGenerator.Reachable generateImages m ->
  (1 <= LogoGenerator.step (LogoGenerator.ui m) <= 6)%Z
  /\ (LogoGenerator.view (LogoGenerator.ui m) = LogoGenerator.Results ->
      LogoGenerator.generatedLogos (LogoGenerator.ui m) <> []
      /\ Forall pngUrl (LogoGenerator.generatedLogos (LogoGenerator.ui m))).
Proof.
  intros (Hrange & _ & _ & _ & Hlogos & _)%logoInvariant_reachable.
  split; [exact Hrange|]. intros Hview. apply Hlogos.
  unfold LogoGenerator.view in Hview.
  destruct (LogoGenerator.isLoading (LogoGenerator.ui m)); [discriminate|].
  destruct (JS.truthy (LogoGenerator.error (LogoGenerator.ui m))); [discriminate|].
  destruct (LogoGenerator.step (LogoGenerator.ui m) >? 5)%Z eqn:Hgt; [|discriminate].
  rewrite Z.gtb_ltb in Hgt. apply Z.ltb_lt in Hgt. lia.
Qed.

(** X24: the logo page asks for logos only from the last step of the
    wizard and only with data that the wizard has checked: a brand name that
    is not empty, one of the four iconography options, and at most three
    styles, each once, among the six options. *)
Theorem logo_request_is_checked (m : LogoGenerator.Machine) (step0 : Z) (d : LogoData.t) :
  LogoGenerator.Reachable generateImages m ->
  LogoGenerator.pending m = Some (step0, d) ->
  step0 = 5%Z
  /\ LogoData.name d <> ""
  /\ In (LogoData.iconography d) LogoGenerator.iconOptions
  /\ (length (LogoData.styles d) <= 3)%nat
  /\ NoDup (LogoData.styles d)
  /\ incl (LogoData.styles d) LogoGenerator.styleOptions.
Proof.
  intros (Hrange & Hname & (Hlen & Hnd & Hincl) & Hicon & _ & Hpending)
    %logoInvariant_reachable Hp.
  rewrite Hp in Hpending. destruct Hpending as (_ & _ & -> & Hs & -> & Hi).
  repeat split; auto.
  - apply Hname. lia.
  - destruct Hicon as [Hempty | Hin]; [contradiction | exact Hin].
Qed.

End LogoFacts.

(** X25: toggling a style twice gives back the same styles: the same list
    when the style was not chosen, and in any case a list with the same
    members. *)
Theorem toggle_twice (style : string) (styles : list string) :
  (~ In style styles ->
   LogoGenerator.toggle style (LogoGenerator.toggle style styles) = styles)
  /\ (forall x,
        In x (LogoGenerator.toggle style (LogoGenerator.toggle style styles))
        <-> In x styles).
Proof.
  unfold LogoGenerator.toggle.
  destruct (arrayIncludes styles style) eqn:Hin.
  - apply arrayIncludes_In in Hin as Hmem.
    assert (Hout : arrayIncludes (without style styles) style = false).
    { apply arrayIncludes_not_In. intros [_ Hne]%without_In. congruence. }
    rewrite Hout. split; [contradiction|].
    intros x. rewrite in_app_iff, without_In. simpl. split.
    + intros [[Hx _] | [<- | []]]; auto.
    + intros Hx. destruct (String.eqb_spec x style) as [->|Hne]; auto.
  - apply arrayIncludes_not_In in Hin as Hnot.
    assert (Hnow : arrayIncludes (styles ++ [style])%list style = true).
    { apply arrayIncludes_In, in_or_app. right. now left. }
    rewrite Hnow, (without_appended style styles Hnot). split; [reflexivity|].
    intros x. reflexivity.
Qed.


Lemma logoRequested_reachable :
  LogoGenerator.Reachable twoLogosService logoRequested.
Proof.
  unfold logoRequested.
  eapply LogoGenerator.ReachStep;
    [|apply (LogoGenerator.ClickGenerate twoLogosService logoChosen); reflexivity].
  eapply LogoGenerator.ReachStep;
    [|apply (LogoGenerator.ClickIcon twoLogosService "Abstract Shape" logoAtStep5);
      [reflexivity | reflexivity | now left]].
  eapply LogoGenerator.ReachStep;
    [|apply (LogoGenerator.ClickNext twoLogosService
               (LogoGenerator.handleNext
                  (LogoGenerator.handleNext (LogoGenerator.handleNext logoNamed))));
      [reflexivity | reflexivity | reflexivity]].
  eapply LogoGenerator.ReachStep;
    [|apply (LogoGenerator.ClickNext twoLogosService
               (LogoGenerator.handleNext (LogoGenerator.handleNext logoNamed)));
      [reflexivity | reflexivity | reflexivity]].
  eapply LogoGenerator.ReachStep;
    [|apply (LogoGenerator.ClickNext twoLogosService (LogoGenerator.handleNext logoNamed));
      [reflexivity | reflexivity | reflexivity]].
  eapply LogoGenerator.ReachStep;
    [|apply (LogoGenerator.ClickNext twoLogosService logoNamed);
      [reflexivity | reflexivity | reflexivity]].
  eapply LogoGenerator.ReachStep;
    [apply LogoGenerator.ReachStart
    |apply (LogoGenerator.TypeName twoLogosService "Acme" LogoGenerator.initial);
      reflexivity].
Defined.

Lemma logoShown_reachable :
  LogoGenerator.Reachable twoLogosService logoShown.
Proof.
  unfold logoShown.
  eapply LogoGenerator.ReachStep;
    [exact logoRequested_reachable
    |apply (LogoGenerator.Settle twoLogosService); reflexivity].
Defined.

Lemma logo_results_view_has_logos_witness :
  (1 <= LogoGenerator.step (LogoGenerator.ui logoShown) <= 6)%Z
  /\ (LogoGenerator.view (LogoGenerator.ui logoShown) = LogoGenerator.Results ->
      LogoGenerator.generatedLogos (LogoGenerator.ui logoShown) <> []
      /\ Forall pngUrl (LogoGenerator.generatedLogos (LogoGenerator.ui logoShown))).
Proof.
  exact (logo_results_view_has_logos twoLogosService logoShown logoShown_reachable).
Defined.

Lemma logo_request_is_checked_witness :
  LogoGenerator.step logoChosen = 5%Z
  /\ LogoData.name (LogoGenerator.logoData logoChosen) <> ""
  /\ In (LogoData.iconography (LogoGenerator.logoData logoChosen))
        LogoGenerator.iconOptions
  /\ (length (LogoData.styles (LogoGenerator.logoData logoChosen)) <= 3)%nat
  /\ NoDup (LogoData.styles (LogoGenerator.logoData logoChosen))
  /\ incl (LogoData.styles (LogoGenerator.logoData logoChosen))
          LogoGenerator.styleOptions.
Proof.
  exact (logo_request_is_checked twoLogosService logoRequested
           (LogoGenerator.step logoChosen) (LogoGenerator.logoData logoChosen)
           logoRequested_reachable eq_refl).
Defined.
